(** * Gaming-center control layer: discovery, connection registry, sessions

    A shallow embedding of the network core of the application:
    - [client/src/discovery_client.py]   (module [DiscoveryClient])
    - [server/src/network/network_manager.py] (module [NetworkManager])
    - [server/src/discovery_service.py]  (module [DiscoveryService])
    - [server/src/database/db_manager.py] and [server/src/main.py]
                                         (module [GamingCenterServer])
    - [client/src/main.py]               (module [GamingCenterClient])

    Python objects become records, attribute mutation becomes explicit state
    passing, and a call that can raise returns a [result].  What the
    environment decides (the clock, the outcome of a socket operation, the
    answer of a dialog, fresh random key material) is an explicit argument
    or a field of the modelled socket. *)

From Stdlib Require Import ZArith QArith Lia DecimalString.
From stdpp Require Import gmap strings list fin_maps.

Set Warnings "-register-all".

Open Scope Z_scope.

(** ** Python values shared by the modules *)

Module Py.

(** The exception classes the modelled code raises or catches.  All of
    them derive from [Exception]. *)
Inductive exn : Type :=
| KeyError (key : string)
| AttributeError
| TypeError
| ValueError
| OSError
| JSONDecodeError
| ConnectionResetError
| Sqlite3Error
| OverflowError
| InvalidToken.

(** Outcome of a call: normal return or a raised exception. *)
Inductive result (A : Type) : Type :=
| Ok (a : A)
| Raise (e : exn).
Arguments Ok {A} a.
Arguments Raise {A} e.

Definition is_ok {A} (r : result A) : bool :=
  match r with Ok _ => true | Raise _ => false end.

(** What [json.loads] can return, and what [json.dumps] accepts.  A float
    is held as the rational it is; the floats that are not numbers or not
    finite are not represented. *)
Inductive json : Type :=
| JNull
| JBool (b : bool)
| JInt (z : Z)
| JFloat (q : Q)
| JStr (s : string)
| JList (l : list json)
| JDict (d : list (string * json)).

(** A [dict] with string keys, in insertion order. *)
Definition dict (V : Type) : Type := list (string * V).

(** [k in d] / [d.get(k)] *)
Fixpoint dict_get {V} (k : string) (d : dict V) : option V :=
  match d with
  | [] => None
  | (k', v) :: d' => if String.eqb k k' then Some v else dict_get k d'
  end.

Definition dict_mem {V} (k : string) (d : dict V) : bool :=
  match dict_get k d with Some _ => true | None => false end.

(** [d[k] = v]: an existing key keeps its position, a new key is
    appended. *)
Fixpoint dict_set {V} (k : string) (v : V) (d : dict V) : dict V :=
  match d with
  | [] => [(k, v)]
  | (k', v') :: d' =>
      if String.eqb k k' then (k', v) :: d' else (k', v') :: dict_set k v d'
  end.

(** [del d[k]] for a key that is present; no change otherwise. *)
Fixpoint dict_del {V} (k : string) (d : dict V) : dict V :=
  match d with
  | [] => []
  | (k', v') :: d' =>
      if String.eqb k k' then d' else (k', v') :: dict_del k d'
  end.

Definition dict_values {V} (d : dict V) : list V := map snd d.
Definition dict_keys {V} (d : dict V) : list string := map fst d.

(** [d[k]]: raises [KeyError] on a missing key. *)
Definition dict_item {V} (k : string) (d : dict V) : result V :=
  match dict_get k d with Some v => Ok v | None => Raise (KeyError k) end.

(** [f"{z}"] for an [int]. *)
Definition str_of_int (z : Z) : string := NilZero.string_of_int (Z.to_int z).

Lemma dict_get_set_eq {V} k (v : V) d : dict_get k (dict_set k v d) = Some v.
Proof.
  induction d as [|[k' v'] d IH]; simpl.
  - now rewrite String.eqb_refl.
  - destruct (String.eqb k k') eqn:E; simpl; rewrite E; [reflexivity|exact IH].
Qed.

Lemma dict_get_set_ne {V} k k' (v : V) d :
  k <> k' -> dict_get k' (dict_set k v d) = dict_get k' d.
Proof.
  intros Hne. induction d as [|[k0 v0] d IH]; simpl.
  - destruct (String.eqb k' k) eqn:E; [|reflexivity].
    apply String.eqb_eq in E. congruence.
  - destruct (String.eqb k k0) eqn:E; simpl.
    + apply String.eqb_eq in E. subst k0.
      destruct (String.eqb k' k) eqn:E'; [|reflexivity].
      apply String.eqb_eq in E'. congruence.
    + destruct (String.eqb k' k0); [reflexivity|exact IH].
Qed.

Lemma dict_get_In {V} k (v : V) d : dict_get k d = Some v -> In (k, v) d.
Proof.
  induction d as [|[k' v'] d IH]; simpl; [discriminate|].
  destruct (String.eqb k k') eqn:E.
  - apply String.eqb_eq in E. intros [= ->]. subst. now left.
  - intros H. right. auto.
Qed.

End Py.

(** ** The discovery listener ([client/src/discovery_client.py]) *)

Module DiscoveryClient.
Import Py.

(** A [datetime] is a number of microseconds, which is the resolution of
    Python's [datetime]; a [timedelta] is a difference of two of them. *)
Definition datetime : Type := Z.

Definition seconds (n : Z) : Z := n * 1000000.

(** The [ServerInfo] dataclass.  [latency] is a duration in milliseconds;
    the prober only ever stores finite floats, which are ordered as the
    rationals they denote. *)
Record ServerInfo : Type := mkServerInfo {
  name : string;
  port : Z;
  version : string;
  status : string;
  last_seen : datetime;
  address : string;
  features : list string;
  latency : option Q
}.

(** The decoded announcement [info]: a [dict] in which any key may be
    absent.  The values carry the types the broadcaster gives them. *)
Record announcement : Type := mkAnnouncement {
  info_name : option string;
  info_port : option Z;
  info_version : option string;
  info_status : option string;
  info_features : option (list string)
}.

(** A registered callback: called with the entry, it returns or raises. *)
Definition callback : Type := ServerInfo -> result unit.

(** The attributes of [DiscoveryClient] that the modelled methods touch,
    and the calls made to [on_server_found] so far (oldest first), each
    with the server id it was made for. *)
Record t : Type := mkClient {
  servers : dict ServerInfo;
  on_server_found : option callback;
  server_timeout : Z;
  found_calls : list (string * ServerInfo)
}.

(** [DiscoveryClient.__init__] *)
Definition init : t :=
  {| servers := []; on_server_found := None; server_timeout := 15;
     found_calls := [] |}.

Definition set_server_found_callback (cb : callback) (c : t) : t :=
  {| servers := servers c; on_server_found := Some cb;
     server_timeout := server_timeout c; found_calls := found_calls c |}.

(** [f"{address}:{info['port']}"] *)
Definition server_id (addr : string) (p : Z) : string :=
  addr +:+ ":" +:+ str_of_int p.

(** [info[key]] *)
Definition item {A} (key : string) (o : option A) : result A :=
  match o with Some a => Ok a | None => Raise (KeyError key) end.

Definition with_servers (d : dict ServerInfo) (c : t) : t :=
  {| servers := d; on_server_found := on_server_found c;
     server_timeout := server_timeout c; found_calls := found_calls c |}.

Definition with_found_call (sid : string) (s : ServerInfo) (c : t) : t :=
  {| servers := servers c; on_server_found := on_server_found c;
     server_timeout := server_timeout c;
     found_calls := found_calls c ++ [(sid, s)] |}.

(** The [ServerInfo(...)] built from an announcement; [features] defaults
    to the empty list and [latency] is passed as [None]. *)
Definition new_entry (info : announcement) (addr : string) (now : datetime)
    : result ServerInfo :=
  match item "name" (info_name info) with
  | Raise e => Raise e
  | Ok n =>
    match item "port" (info_port info) with
    | Raise e => Raise e
    | Ok p =>
      match item "version" (info_version info) with
      | Raise e => Raise e
      | Ok v =>
        match item "status" (info_status info) with
        | Raise e => Raise e
        | Ok s =>
          Ok {| name := n; port := p; version := v; status := s;
                last_seen := now; address := addr;
                features := match info_features info with
                            | Some f => f
                            | None => []
                            end;
                latency := None |}
        end
      end
    end
  end.

(** [_update_server_info(info, address)] at clock reading [now].  The
    subscripts are evaluated before the assignment, so a missing key raises
    with the table unwritten.  The call of the callback is recorded before
    its outcome is known; whether it returns or raises, nothing but a debug
    log line follows it. *)
Definition _update_server_info (info : announcement) (addr : string)
    (now : datetime) (c : t) : result unit * t :=
  match item "port" (info_port info) with
  | Raise e => (Raise e, c)
  | Ok p =>
    let sid := server_id addr p in
    let is_new := negb (dict_mem sid (servers c)) in
    match new_entry info addr now with
    | Raise e => (Raise e, c)
    | Ok entry =>
      let c1 := with_servers (dict_set sid entry (servers c)) c in
      match (if is_new then on_server_found c else None) with
      | Some cb => (cb entry, with_found_call sid entry c1)
      | None => (Ok tt, c1)
      end
    end
  end.

(** One received datagram that passed [_meets_requirements], as the body
    of [_discovery_loop] handles it: an exception is logged and the loop
    goes on. *)
Definition receive (d : announcement * string * datetime) (c : t) : t :=
  let '(info, addr, now) := d in snd (_update_server_info info addr now c).

(** The listener over a sequence of accepted datagrams. *)
Definition receive_all (ds : list (announcement * string * datetime)) (c : t) : t :=
  fold_left (fun c d => receive d c) ds c.

(** The id a datagram is stored under, when it has a port. *)
Definition datagram_id (d : announcement * string * datetime) : option string :=
  let '(info, addr, _) := d in
  match info_port info with Some p => Some (server_id addr p) | None => None end.

(** The calls of [on_server_found] made for server id [sid]. *)
Definition calls_for (sid : string) (c : t) : list (string * ServerInfo) :=
  filter (fun kv => fst kv = sid) (found_calls c).

(** One pass of the body of [_check_latency]: [probe address port] is the
    outcome of the timed connect, the round trip in milliseconds or [None]
    when the connect raised. *)
Definition _check_latency_pass (probe : string -> Z -> option Q) (c : t) : t :=
  {| servers :=
       map (fun kv : string * ServerInfo =>
              let s := snd kv in
              (fst kv,
               {| name := name s; port := port s; version := version s;
                  status := status s; last_seen := last_seen s;
                  address := address s; features := features s;
                  latency := probe (address s) (port s) |}))
           (servers c);
     on_server_found := on_server_found c;
     server_timeout := server_timeout c;
     found_calls := found_calls c |}.

(** [a < b] on latencies. *)
Definition Qltb (a b : Q) : bool :=
  (Qnum a * Z.pos (Qden b) <? Qnum b * Z.pos (Qden a))%Z.

(** The sort key [lambda s: s.latency]; the comprehension has filtered
    the entries without a latency out before it is applied. *)
Definition latency_key (s : ServerInfo) : Q :=
  match latency s with Some q => q | None => 0%Q end.

(** [min(l, key=...)] on a non-empty list headed by [best]: the first of
    the smallest elements. *)
Fixpoint py_min (key : ServerInfo -> Q) (best : ServerInfo) (l : list ServerInfo)
    : ServerInfo :=
  match l with
  | [] => best
  | x :: l' => py_min key (if Qltb (key x) (key best) then x else best) l'
  end.

Definition is_candidate (s : ServerInfo) : bool :=
  String.eqb (status s) "running" &&
  match latency s with Some _ => true | None => false end.

(** [get_best_server()]: the result, and the client it leaves behind. *)
Definition get_best_server (c : t) : option ServerInfo * t :=
  let available_servers := filter (fun s => is_candidate s = true) (dict_values (servers c)) in
  match available_servers with
  | [] => (None, c)
  | s :: l => (Some (py_min latency_key s l), c)
  end.

(** *** Best-server selection *)

Lemma Qltb_lt (a b : Q) : Qltb a b = true <-> (a < b)%Q.
Proof. unfold Qltb, Qlt. apply Z.ltb_lt. Qed.

Lemma Qltb_ge (a b : Q) : Qltb a b = false <-> (b <= a)%Q.
Proof. unfold Qltb, Qle. apply Z.ltb_ge. Qed.

Lemma py_min_elem key best l : py_min key best l ∈ best :: l.
Proof.
  revert best. induction l as [|x l IH]; intros best; simpl.
  - apply list_elem_of_here.
  - specialize (IH (if Qltb (key x) (key best) then x else best)).
    apply elem_of_cons in IH as [-> | IH].
    + destruct (Qltb (key x) (key best)).
      * apply list_elem_of_further, list_elem_of_here.
      * apply list_elem_of_here.
    + now do 2 apply list_elem_of_further.
Qed.

Lemma py_min_le_best key best l : (key (py_min key best l) <= key best)%Q.
Proof.
  revert best. induction l as [|x l IH]; intros best; simpl.
  - apply Qle_refl.
  - destruct (Qltb (key x) (key best)) eqn:E.
    + apply Qle_trans with (key x); [apply IH|].
      apply Qlt_le_weak. now apply Qltb_lt.
    + apply IH.
Qed.

Lemma py_min_least key best l x :
  x ∈ best :: l -> (key (py_min key best l) <= key x)%Q.
Proof.
  revert best. induction l as [|y l IH]; intros best Hx.
  - apply elem_of_cons in Hx as [-> | Hx]; [apply Qle_refl|].
    now apply elem_of_nil in Hx.
  - simpl. apply elem_of_cons in Hx as [-> | Hx].
    + eapply Qle_trans; [apply py_min_le_best|].
      destruct (Qltb (key y) (key best)) eqn:E; [|apply Qle_refl].
      apply Qlt_le_weak. now apply Qltb_lt.
    + apply elem_of_cons in Hx as [-> | Hx].
      * eapply Qle_trans; [apply py_min_le_best|].
        destruct (Qltb (key y) (key best)) eqn:E; [apply Qle_refl|].
        now apply Qltb_ge.
      * apply IH. now apply list_elem_of_further.
Qed.

Lemma is_candidate_spec s :
  is_candidate s = true <-> status s = "running" /\ exists q, latency s = Some q.
Proof.
  unfold is_candidate. rewrite andb_true_iff, String.eqb_eq.
  destruct (latency s) as [q|]; split; intros [H1 H2]; split; eauto.
  - discriminate.
  - destruct H2 as [q Hq]. discriminate.
Qed.

(** C4.  [get_best_server()] leaves the client as it was; when it returns
    an entry, that entry is in the table, is running, has a latency, and
    no running entry with a latency has a smaller one; when it returns
    [None], no entry of the table is both running and measured. *)
Theorem get_best_server_min (c : t) :
  snd (get_best_server c) = c /\
  match fst (get_best_server c) with
  | Some r =>
      r ∈ dict_values (servers c) /\ status r = "running" /\
      exists q, latency r = Some q /\
        forall s q', s ∈ dict_values (servers c) -> status s = "running" ->
                     latency s = Some q' -> (q <= q')%Q
  | None =>
      forall s, s ∈ dict_values (servers c) -> status s = "running" ->
                latency s = None
  end.
Proof.
  unfold get_best_server.
  destruct (filter _ (dict_values (servers c))) as [|b l] eqn:Hf; simpl.
  - split; [reflexivity|]. intros s Hs Hrun.
    destruct (latency s) as [q|] eqn:Hl; [|reflexivity].
    assert (Hin : s ∈ filter (fun s => is_candidate s = true) (dict_values (servers c))).
    { apply list_elem_of_filter. split; [|exact Hs].
      apply is_candidate_spec. eauto. }
    rewrite Hf in Hin. now apply elem_of_nil in Hin.
  - split; [reflexivity|].
    pose proof (py_min_elem latency_key b l) as Hin.
    rewrite <- Hf in Hin. apply list_elem_of_filter in Hin as [Hc Hin].
    apply is_candidate_spec in Hc as [Hrun [q Hq]].
    split; [exact Hin|]. split; [exact Hrun|].
    exists q. split; [exact Hq|]. intros s q' Hs Hrs Hls.
    assert (Hs' : s ∈ b :: l).
    { rewrite <- Hf. apply list_elem_of_filter. split; [|exact Hs].
      apply is_candidate_spec. eauto. }
    pose proof (py_min_least latency_key b l s Hs') as Hle.
    unfold latency_key in Hle at 1 3. now rewrite Hq, Hls in Hle.
Qed.

(** The example of the specification: latencies 120 ms, 45 ms and none. *)
Example get_best_server_example :
  let mk n l := {| name := n; port := 5001; version := "1.0.0"; status := "running";
                   last_seen := 0; address := n; features := []; latency := l |} in
  let c := {| servers := [("a:5001", mk "a" (Some 120%Q)); ("b:5001", mk "b" (Some 45%Q));
                          ("c:5001", mk "c" None)];
              on_server_found := None; server_timeout := 15; found_calls := [] |} in
  fst (get_best_server c) = Some (mk "b" (Some 45%Q)).
Proof. reflexivity. Qed.

(** *** Announcements: first sight and refresh *)

Lemma dict_mem_false {V} k (d : dict V) : dict_get k d = None -> dict_mem k d = false.
Proof. unfold dict_mem. now intros ->. Qed.

Lemma dict_mem_true {V} k (d : dict V) v : dict_get k d = Some v -> dict_mem k d = true.
Proof. unfold dict_mem. now intros ->. Qed.

Lemma new_entry_port info addr now e :
  new_entry info addr now = Ok e -> info_port info = Some (port e).
Proof.
  unfold new_entry, item.
  destruct (info_name info), (info_port info), (info_version info), (info_status info);
    try discriminate.
  now intros [= <-].
Qed.

Lemma new_entry_fields info addr now e :
  new_entry info addr now = Ok e ->
  last_seen e = now /\ address e = addr /\ latency e = None /\
  info_name info = Some (name e) /\ info_version info = Some (version e) /\
  info_status info = Some (status e).
Proof.
  unfold new_entry, item.
  destruct (info_name info), (info_port info), (info_version info), (info_status info);
    try discriminate.
  intros [= <-]. simpl. auto 10.
Qed.

Lemma receive_callback d c : on_server_found (receive d c) = on_server_found c.
Proof.
  destruct d as [[info addr] now]. unfold receive, _update_server_info.
  destruct (item "port" (info_port info)); [|reflexivity].
  destruct (new_entry info addr now); [|reflexivity].
  destruct (negb _); [destruct (on_server_found c) eqn:E|]; simpl; congruence.
Qed.

Lemma calls_for_snoc sid sid' s c :
  calls_for sid (with_found_call sid' s c) =
  calls_for sid c ++ (if decide (sid' = sid) then [(sid', s)] else []).
Proof.
  unfold calls_for, with_found_call. simpl. rewrite filter_app. now f_equal.
Qed.

(** A datagram stored under another id touches neither the entry of [sid]
    nor the calls made for it. *)
Lemma receive_other sid d c :
  datagram_id d <> Some sid ->
  dict_get sid (servers (receive d c)) = dict_get sid (servers c) /\
  calls_for sid (receive d c) = calls_for sid c.
Proof.
  destruct d as [[info addr] now]. unfold datagram_id, receive, _update_server_info.
  destruct (info_port info) as [p|]; simpl; [|now split].
  intros Hne. assert (Hk : server_id addr p <> sid) by congruence.
  destruct (new_entry info addr now) as [e|]; [|now split].
  destruct (negb _); [destruct (on_server_found c)|]; simpl;
    rewrite ?calls_for_snoc; simpl; rewrite ?dict_get_set_ne by exact Hk;
    try (destruct (decide (server_id addr p = sid)); [contradiction|]);
    rewrite ?app_nil_r; now split.
Qed.

(** A datagram for an id that is already known makes no call. *)
Lemma receive_known sid d c :
  datagram_id d = Some sid -> is_Some (dict_get sid (servers c)) ->
  found_calls (receive d c) = found_calls c /\
  is_Some (dict_get sid (servers (receive d c))).
Proof.
  destruct d as [[info addr] now]. unfold datagram_id, receive, _update_server_info.
  destruct (info_port info) as [p|]; simpl; [|discriminate].
  intros [= <-] [s Hs].
  destruct (new_entry info addr now) as [e|]; [|split; eauto].
  rewrite (dict_mem_true _ _ _ Hs). simpl. split; [reflexivity|].
  rewrite dict_get_set_eq. eauto.
Qed.

(** A complete datagram is stored under its id with the reception time. *)
Lemma receive_stores sid info addr now e c :
  datagram_id (info, addr, now) = Some sid -> new_entry info addr now = Ok e ->
  dict_get sid (servers (receive (info, addr, now) c)) = Some e.
Proof.
  unfold datagram_id, receive, _update_server_info. intros Hid He.
  rewrite (new_entry_port _ _ _ _ He) in *. simpl. injection Hid as <-.
  rewrite He. destruct (negb _); [destruct (on_server_found c)|]; simpl;
    apply dict_get_set_eq.
Qed.

(** A complete datagram for an unknown id calls the registered callback
    once, with the entry it stored. *)
Lemma receive_new sid info addr now e cb c :
  datagram_id (info, addr, now) = Some sid -> new_entry info addr now = Ok e ->
  on_server_found c = Some cb -> dict_get sid (servers c) = None ->
  found_calls (receive (info, addr, now) c) = found_calls c ++ [(sid, e)].
Proof.
  unfold datagram_id, receive, _update_server_info. intros Hid He Hcb Hnone.
  rewrite (new_entry_port _ _ _ _ He) in *. simpl. injection Hid as <-.
  rewrite He, (dict_mem_false _ _ Hnone), Hcb. reflexivity.
Qed.

Lemma receive_all_app ds1 ds2 c :
  receive_all (ds1 ++ ds2) c = receive_all ds2 (receive_all ds1 c).
Proof. unfold receive_all. apply fold_left_app. Qed.

Lemma receive_all_cons d ds c :
  receive_all (d :: ds) c = receive_all ds (receive d c).
Proof. reflexivity. Qed.

Lemma receive_all_others sid ds c :
  Forall (fun d => datagram_id d <> Some sid) ds ->
  dict_get sid (servers (receive_all ds c)) = dict_get sid (servers c) /\
  calls_for sid (receive_all ds c) = calls_for sid c /\
  on_server_found (receive_all ds c) = on_server_found c.
Proof.
  intros H. revert c. induction H as [|d ds Hd _ IH]; intros c; [now repeat split|].
  simpl. destruct (IH (receive d c)) as (-> & -> & ->).
  destruct (receive_other sid d c Hd) as [-> ->]. now rewrite receive_callback.
Qed.

(** Once an id is known, nothing the listener receives calls the callback
    for it again, and it stays known. *)
Lemma receive_all_known sid ds c :
  is_Some (dict_get sid (servers c)) ->
  calls_for sid (receive_all ds c) = calls_for sid c /\
  is_Some (dict_get sid (servers (receive_all ds c))).
Proof.
  revert c. induction ds as [|d ds IH]; intros c Hk; [now split|].
  simpl. destruct (decide (datagram_id d = Some sid)) as [Hd|Hd].
  - destruct (receive_known sid d c Hd Hk) as [Hc Hs].
    destruct (IH _ Hs) as [-> Hs']. split; [|exact Hs'].
    unfold calls_for. now rewrite Hc.
  - destruct (receive_other sid d c Hd) as [Hg Hc].
    assert (Hs : is_Some (dict_get sid (servers (receive d c)))) by now rewrite Hg.
    destruct (IH _ Hs) as [-> Hs']. now split.
Qed.

(** Whether the datagram has the four keys that [ServerInfo(...)]
    subscripts. *)
Definition complete (d : announcement * string * datetime) : bool :=
  let '(info, addr, now) := d in is_ok (new_entry info addr now).

(** An accepted datagram that lacks one of the keys raises [KeyError]
    before the table is written or the callback called. *)
Lemma receive_incomplete d c : complete d = false -> receive d c = c.
Proof.
  destruct d as [[info addr] now]. unfold complete, receive, _update_server_info.
  destruct (item "port" (info_port info)); [|reflexivity].
  now destruct (new_entry info addr now).
Qed.

Lemma receive_all_before_first sid ds c :
  Forall (fun d => datagram_id d = Some sid -> complete d = false) ds ->
  dict_get sid (servers (receive_all ds c)) = dict_get sid (servers c) /\
  calls_for sid (receive_all ds c) = calls_for sid c /\
  on_server_found (receive_all ds c) = on_server_found c.
Proof.
  intros H. revert c. induction H as [|d ds Hd _ IH]; intros c; [now repeat split|].
  rewrite receive_all_cons. destruct (IH (receive d c)) as (-> & -> & ->).
  destruct (decide (datagram_id d = Some sid)) as [Hid|Hid].
  - now rewrite (receive_incomplete d c (Hd Hid)).
  - destruct (receive_other sid d c Hid) as [-> ->]. now rewrite receive_callback.
Qed.

Definition sample_announcement : announcement :=
  {| info_name := Some "Gaming Center Server"; info_port := Some 5001;
     info_version := Some "1.0.0"; info_status := Some "running";
     info_features := Some ["session_management"; "payment_processing"] |}.

Definition sample_entry (now : datetime) (l : option Q) : ServerInfo :=
  {| name := "Gaming Center Server"; port := 5001; version := "1.0.0";
     status := "running"; last_seen := now; address := "10.0.0.2";
     features := ["session_management"; "payment_processing"]; latency := l |}.

(** An announcement that carries a port and nothing else; the listener's
    default requirements accept it. *)
Definition port_only_announcement : announcement :=
  {| info_name := None; info_port := Some 5001; info_version := None;
     info_status := None; info_features := None |}.

(** C5, as stated, fails.  The first announcement of the id carries only
    a port: it is accepted, raises [KeyError] and notifies nobody, so a
    sequence with this one announcement has no notification; when a
    complete announcement follows, the notification comes with that second
    one. *)
Lemma server_found_on_first_announcement_counterexample :
  let c0 := set_server_found_callback (fun _ => Ok tt) init in
  let first := (port_only_announcement, "10.0.0.2", seconds 1) in
  let second := (sample_announcement, "10.0.0.2", seconds 6) in
  datagram_id first = Some "10.0.0.2:5001" /\
  datagram_id second = Some "10.0.0.2:5001" /\
  calls_for "10.0.0.2:5001" (receive_all [first] c0) = [] /\
  calls_for "10.0.0.2:5001" (receive_all [first; second] c0)
    = [("10.0.0.2:5001", sample_entry (seconds 6) None)].
Proof. repeat split. Qed.

(** C5, amended.  Take any sequence of accepted datagrams in which
    [first] is the first complete one carrying server id [sid]: the
    datagrams of [sid] before it, if any, lack a key; [rest] may repeat the
    id any number of times, among datagrams of other servers.  With a
    callback registered and [sid] not yet known, the callback is called
    for [sid] exactly once, with the entry built from [first].  Every later
    datagram of [sid] makes no call: a complete one replaces the stored
    entry by one stamped with its own reception time, and one that lacks a
    key changes nothing. *)
Theorem server_found_once
    (cb : callback) (c0 : t) (sid : string)
    (pre rest : list (announcement * string * datetime))
    (info : announcement) (addr : string) (now : datetime) (e : ServerInfo) :
  on_server_found c0 = Some cb ->
  dict_get sid (servers c0) = None ->
  calls_for sid c0 = [] ->
  Forall (fun d => datagram_id d = Some sid -> complete d = false) pre ->
  datagram_id (info, addr, now) = Some sid ->
  new_entry info addr now = Ok e ->
  calls_for sid (receive_all (pre ++ (info, addr, now) :: rest) c0) = [(sid, e)] /\
  forall rest1 rest2 info' addr' now',
    rest = rest1 ++ (info', addr', now') :: rest2 ->
    datagram_id (info', addr', now') = Some sid ->
    let before := receive_all (pre ++ (info, addr, now) :: rest1) c0 in
    let after := receive (info', addr', now') before in
    found_calls after = found_calls before /\
    match new_entry info' addr' now' with
    | Ok e' => dict_get sid (servers after) = Some e' /\ last_seen e' = now'
    | Raise _ => after = before
    end.
Proof.
  intros Hcb Hnone Hcalls Hpre Hid He.
  destruct (receive_all_before_first sid pre c0 Hpre) as (Hg & Hc & Hf).
  set (c1 := receive_all pre c0) in *.
  assert (Hknown : is_Some (dict_get sid (servers (receive (info, addr, now) c1)))).
  { rewrite (receive_stores sid info addr now e c1 Hid He). eauto. }
  assert (Hfirst : calls_for sid (receive (info, addr, now) c1) = [(sid, e)]).
  { unfold calls_for.
    rewrite (receive_new sid info addr now e cb c1 Hid He); [| congruence | congruence].
    rewrite filter_app. fold (calls_for sid c1). rewrite Hc, Hcalls. simpl.
    rewrite filter_cons. simpl. destruct (decide (sid = sid)); [reflexivity|contradiction]. }
  split.
  - rewrite receive_all_app, receive_all_cons. fold c1.
    destruct (receive_all_known sid rest _ Hknown) as [-> _]. exact Hfirst.
  - intros rest1 rest2 info' addr' now' _ Hid' before after.
    assert (Hb : is_Some (dict_get sid (servers before))).
    { unfold before. rewrite receive_all_app, receive_all_cons. fold c1.
      now apply receive_all_known. }
    destruct (receive_known sid _ before Hid' Hb) as [Hsame _].
    split; [exact Hsame|].
    destruct (new_entry info' addr' now') as [e'|err] eqn:He'.
    + split; [now apply receive_stores|]. now apply new_entry_fields in He'.
    + apply receive_incomplete. unfold complete. now rewrite He'.
Qed.

(** A broadcast with only a port, then three complete broadcasts of the
    same server, five seconds apart: one call, for the first complete
    one. *)
Lemma server_found_once_witness :
  let c0 := set_server_found_callback (fun _ => Ok tt) init in
  calls_for "10.0.0.2:5001"
    (receive_all ([(port_only_announcement, "10.0.0.2", seconds 0)]
                  ++ (sample_announcement, "10.0.0.2", seconds 1)
                  :: [(sample_announcement, "10.0.0.2", seconds 6);
                      (sample_announcement, "10.0.0.2", seconds 11)]) c0)
  = [("10.0.0.2:5001", sample_entry (seconds 1) None)].
Proof.
  intros c0.
  refine (proj1 (server_found_once (fun _ => Ok tt) c0 "10.0.0.2:5001"
                   [(port_only_announcement, "10.0.0.2", seconds 0)]
                   [(sample_announcement, "10.0.0.2", seconds 6);
                    (sample_announcement, "10.0.0.2", seconds 11)]
                   sample_announcement "10.0.0.2" (seconds 1)
                   (sample_entry (seconds 1) None) _ _ _ _ _ _));
    try reflexivity.
  repeat constructor.
Defined.

(** *** Who writes [latency] *)

Lemma check_latency_pass_get probe c k :
  dict_get k (servers (_check_latency_pass probe c)) =
  (fun s => {| name := name s; port := port s; version := version s;
               status := status s; last_seen := last_seen s;
               address := address s; features := features s;
               latency := probe (address s) (port s) |}) <$> dict_get k (servers c).
Proof.
  unfold _check_latency_pass. simpl.
  induction (servers c) as [|[k' s] d IH]; simpl; [reflexivity|].
  destruct (String.eqb k k'); [reflexivity|exact IH].
Qed.

(** A server measured at 45 ms whose next broadcast arrives. *)
Definition measured_client : t :=
  {| servers := [("10.0.0.2:5001", sample_entry (seconds 1) (Some 45%Q))];
     on_server_found := None; server_timeout := 15; found_calls := [] |}.

(** C9, as stated, fails: the announcement of a known server does not keep
    the measured latency, it stores [None]. *)
Lemma announcement_keeps_latency_counterexample :
  let c' := snd (_update_server_info sample_announcement "10.0.0.2" (seconds 6)
                   measured_client) in
  latency <$> dict_get "10.0.0.2:5001" (servers measured_client) = Some (Some 45%Q) /\
  latency <$> dict_get "10.0.0.2:5001" (servers c') = Some None /\
  latency <$> dict_get "10.0.0.2:5001" (servers c') <>
  latency <$> dict_get "10.0.0.2:5001" (servers measured_client).
Proof. repeat split. discriminate. Qed.

(** C9, amended.  [latency] has two writers.  The prober stores the
    outcome of its connect attempt in every entry.  An announcement of an
    id already in the table, when it is complete, replaces the entry by a
    new one that carries the announced fields, the reception time as
    [last_seen] and [latency = None], whatever had been measured, the
    entries of the other ids not being touched; when it lacks a key, it
    raises [KeyError] and the table, the measured latency included, is as
    it was. *)
Theorem announcement_resets_latency
    (info : announcement) (addr : string) (now : datetime) (c : t)
    (sid : string) (old : ServerInfo) :
  dict_get sid (servers c) = Some old ->
  datagram_id (info, addr, now) = Some sid ->
  let c' := snd (_update_server_info info addr now c) in
  match new_entry info addr now with
  | Ok e =>
    dict_get sid (servers c') = Some e /\
    latency e = None /\ last_seen e = now /\
    info_name info = Some (name e) /\ info_version info = Some (version e) /\
    info_status info = Some (status e) /\
    (forall k, k <> sid -> dict_get k (servers c') = dict_get k (servers c))
  | Raise err =>
    fst (_update_server_info info addr now c) = Raise err /\ c' = c
  end /\
  (forall probe k,
     latency <$> dict_get k (servers (_check_latency_pass probe c)) =
     (fun s => probe (address s) (port s)) <$> dict_get k (servers c)).
Proof.
  intros Hold Hid c'. split.
  - destruct (new_entry info addr now) as [e|err] eqn:He.
    + pose proof (receive_stores sid info addr now e c Hid He) as Hget.
      destruct (new_entry_fields _ _ _ _ He) as (Hls & _ & Hlat & Hn & Hv & Hs).
      repeat split; try assumption.
      intros k Hk.
      assert (Hd : datagram_id (info, addr, now) <> Some k) by congruence.
      apply (receive_other k (info, addr, now) c Hd).
    + subst c'. unfold _update_server_info, datagram_id in *.
      destruct (info_port info) as [p|]; [|discriminate]. simpl. now rewrite He.
  - intros probe k. rewrite check_latency_pass_get.
    now destruct (dict_get k (servers c)).
Qed.

(** A complete announcement of the measured server, and one that lacks
    [status]. *)
Lemma announcement_resets_latency_witness :
  dict_get "10.0.0.2:5001"
    (servers (snd (_update_server_info sample_announcement "10.0.0.2" (seconds 6)
                     measured_client)))
    = Some (sample_entry (seconds 6) None) /\
  snd (_update_server_info
         {| info_name := Some "Gaming Center Server"; info_port := Some 5001;
            info_version := Some "1.0.0"; info_status := None; info_features := None |}
         "10.0.0.2" (seconds 6) measured_client) = measured_client.
Proof.
  split.
  - exact (proj1 (proj1 (announcement_resets_latency sample_announcement "10.0.0.2"
                           (seconds 6) measured_client "10.0.0.2:5001"
                           (sample_entry (seconds 1) (Some 45%Q)) eq_refl eq_refl))).
  - exact (proj2 (proj1 (announcement_resets_latency
                           {| info_name := Some "Gaming Center Server";
                              info_port := Some 5001; info_version := Some "1.0.0";
                              info_status := None; info_features := None |}
                           "10.0.0.2" (seconds 6) measured_client "10.0.0.2:5001"
                           (sample_entry (seconds 1) (Some 45%Q)) eq_refl eq_refl))).
Defined.

(** *** The timeout sweep and the prober over the whole table *)

(** [get_available_servers()] *)
Definition get_available_servers (c : t) : list ServerInfo := dict_values (servers c).

(** [now - server.last_seen > timedelta(seconds=self.server_timeout)] *)
Definition is_timed_out (now : datetime) (timeout : Z) (s : ServerInfo) : bool :=
  seconds timeout <? now - last_seen s.

(** The first [for] loop of [_check_timeouts]: the ids collected in
    [timed_out], or the exception of the callback that raised, and the
    entries [on_server_lost] was called with.  The attribute
    [on_server_lost] is passed as an argument. *)
Fixpoint collect_timed_out (on_server_lost : option callback) (now : datetime)
    (timeout : Z) (items : dict ServerInfo) : result (list string) * list ServerInfo :=
  match items with
  | [] => (Ok [], [])
  | (sid, s) :: rest =>
    if is_timed_out now timeout s then
      match (match on_server_lost with Some cb => Some (cb s) | None => None end) with
      | Some (Raise e) => (Raise e, [s])
      | called =>
        let '(r, calls) := collect_timed_out on_server_lost now timeout rest in
        (match r with Ok ids => Ok (sid :: ids) | Raise e => Raise e end,
         match called with Some _ => s :: calls | None => calls end)
      end
    else collect_timed_out on_server_lost now timeout rest
  end.

(** One pass of the body of [_check_timeouts] at clock reading [now]: the
    entries reported lost, and the client afterwards.  An exception of the
    callback leaves the first loop, so the second loop, which deletes, is
    not reached. *)
Definition _check_timeouts_pass (on_server_lost : option callback) (now : datetime)
    (c : t) : list ServerInfo * t :=
  match collect_timed_out on_server_lost now (server_timeout c) (servers c) with
  | (Ok timed_out, calls) =>
    (calls, with_servers (fold_left (fun d sid => dict_del sid d) timed_out (servers c)) c)
  | (Raise _, calls) => (calls, c)
  end.

(** The callback, if one is registered, returns on every entry. *)
Definition returns (on_server_lost : option callback) : Prop :=
  forall cb s, on_server_lost = Some cb -> exists u, cb s = Ok u.

Lemma dict_set_keys {V} k (v : V) d :
  dict_keys (dict_set k v d) =
  if dict_mem k d then dict_keys d else dict_keys d ++ [k].
Proof.
  unfold dict_mem. induction d as [|[k' v'] d IH]; simpl; [reflexivity|].
  destruct (String.eqb k k') eqn:E; simpl; [reflexivity|].
  rewrite IH. now destruct (dict_get k d).
Qed.

Lemma dict_get_None_keys {V} k (d : dict V) : dict_get k d = None <-> k ∉ dict_keys d.
Proof.
  induction d as [|[k' v'] d IH]; simpl.
  - split; [intros _; apply not_elem_of_nil|reflexivity].
  - rewrite not_elem_of_cons. destruct (String.eqb k k') eqn:E.
    + apply String.eqb_eq in E. split; [discriminate|intros [H _]; contradiction].
    + apply String.eqb_neq in E. rewrite IH. tauto.
Qed.

Lemma dict_set_NoDup {V} k (v : V) d :
  NoDup (dict_keys d) -> NoDup (dict_keys (dict_set k v d)).
Proof.
  intros Hd. rewrite dict_set_keys. unfold dict_mem.
  destruct (dict_get k d) eqn:E; [exact Hd|].
  apply NoDup_app. split; [exact Hd|]. split.
  - intros x Hx Hk. apply list_elem_of_singleton in Hk. subst x.
    now apply dict_get_None_keys in E.
  - apply NoDup_singleton.
Qed.

(** The ids of the table stay pairwise distinct. *)
Lemma receive_NoDup d c :
  NoDup (dict_keys (servers c)) -> NoDup (dict_keys (servers (receive d c))).
Proof.
  destruct d as [[info addr] now]. unfold receive, _update_server_info. intros Hc.
  destruct (item "port" (info_port info)); [|exact Hc].
  destruct (new_entry info addr now); [|exact Hc].
  destruct (negb _); [destruct (on_server_found c)|]; simpl; now apply dict_set_NoDup.
Qed.

Lemma fold_del_cons_notin (k : string) (s : ServerInfo) ids
    (rest : list (string * ServerInfo)) :
  k ∉ ids ->
  fold_left (fun (d : list (string * ServerInfo)) sid => dict_del sid d) ids ((k, s) :: rest) =
  (k, s) :: fold_left (fun (d : list (string * ServerInfo)) sid => dict_del sid d) ids rest.
Proof.
  revert rest. induction ids as [|i ids IH]; intros rest Hk; [reflexivity|].
  apply not_elem_of_cons in Hk as [Hne Hk]. simpl.
  destruct (String.eqb i k) eqn:E.
  - apply String.eqb_eq in E. congruence.
  - now apply IH.
Qed.

Lemma keys_filter_subset {V} (P : string * V -> Prop) `{forall kv, Decision (P kv)}
    (d : list (string * V)) k :
  k ∈ dict_keys (filter P d) -> k ∈ dict_keys d.
Proof.
  induction d as [|[k' v] d IH]; [easy|].
  rewrite filter_cons. simpl. destruct (decide (P (k', v))); simpl.
  - rewrite !elem_of_cons. tauto.
  - rewrite elem_of_cons. tauto.
Qed.

Lemma fold_del_filter (P : string * ServerInfo -> bool) (d : list (string * ServerInfo)) :
  NoDup (dict_keys d) ->
  fold_left (fun (d : list (string * ServerInfo)) sid => dict_del sid d)
            (dict_keys (filter (fun kv => P kv = true) d)) d
  = filter (fun kv => P kv = false) d.
Proof.
  induction d as [|[k s] d IH]; intros Hd; [reflexivity|].
  simpl in Hd. apply NoDup_cons in Hd as [Hk Hd].
  destruct (P (k, s)) eqn:HP.
  - rewrite (filter_cons_True (fun kv => P kv = true) (k, s) d HP).
    rewrite (filter_cons_False (fun kv => P kv = false)) by (rewrite HP; discriminate).
    simpl. rewrite String.eqb_refl. now apply IH.
  - rewrite (filter_cons_False (fun kv => P kv = true)) by (rewrite HP; discriminate).
    rewrite (filter_cons_True (fun kv => P kv = false) (k, s) d HP).
    rewrite fold_del_cons_notin; [now rewrite IH|].
    intros Hin. apply Hk. now apply keys_filter_subset in Hin.
Qed.

Lemma values_filter (P : ServerInfo -> bool) (d : list (string * ServerInfo)) :
  dict_values (filter (fun kv => P (snd kv) = true) d)
  = filter (fun s => P s = true) (dict_values d).
Proof.
  induction d as [|[k s] d IH]; [reflexivity|].
  rewrite filter_cons. unfold dict_values at 2. simpl map. rewrite filter_cons. simpl.
  destruct (decide (P s = true)); simpl; [f_equal|]; exact IH.
Qed.

Lemma collect_timed_out_returns on_lost now timeout d :
  returns on_lost ->
  collect_timed_out on_lost now timeout d =
  (Ok (dict_keys (filter (fun kv => is_timed_out now timeout (snd kv) = true) d)),
   match on_lost with
   | Some _ => dict_values (filter (fun kv => is_timed_out now timeout (snd kv) = true) d)
   | None => []
   end).
Proof.
  intros Hret. unfold dict in *. induction d as [|[k s] d IH]; simpl.
  - now destruct on_lost.
  - destruct (is_timed_out now timeout s) eqn:Ht.
    + rewrite (filter_cons_True (fun kv => is_timed_out now timeout (snd kv) = true)
                 (k, s) d Ht).
      rewrite IH. destruct on_lost as [cb|]; [|reflexivity].
      destruct (Hret cb s eq_refl) as [u ->]. reflexivity.
    + rewrite (filter_cons_False (fun kv => is_timed_out now timeout (snd kv) = true))
        by (simpl; rewrite Ht; discriminate).
      exact IH.
Qed.

(** X1.  A sweep whose callback returns removes exactly the entries whose
    last announcement is older than the timeout, keeps the others as they
    are and in their order, and reports each removed entry once, in table
    order. *)
Theorem check_timeouts_removes_exactly_the_stale
    (on_lost : option callback) (now : datetime) (c : t) :
  NoDup (dict_keys (servers c)) ->
  returns on_lost ->
  servers (snd (_check_timeouts_pass on_lost now c))
    = filter (fun kv => is_timed_out now (server_timeout c) (snd kv) = false) (servers c) /\
  fst (_check_timeouts_pass on_lost now c)
    = match on_lost with
      | Some _ => filter (fun s => is_timed_out now (server_timeout c) s = true)
                         (get_available_servers c)
      | None => []
      end.
Proof.
  intros Hnd Hret. unfold _check_timeouts_pass.
  rewrite (collect_timed_out_returns _ _ _ _ Hret). simpl. unfold dict in *. split.
  - now apply (fold_del_filter (fun kv => is_timed_out now (server_timeout c) (snd kv))).
  - destruct on_lost; [|reflexivity]. apply values_filter.
Qed.

(** Two servers last seen at 1 s and 10 s, swept at 17 s with the default
    timeout of 15 s: the first is reported and removed. *)
Definition two_servers : t :=
  {| servers := [("10.0.0.2:5001", sample_entry (seconds 1) None);
                 ("10.0.0.3:5001", sample_entry (seconds 10) (Some 45%Q))];
     on_server_found := None; server_timeout := 15; found_calls := [] |}.

Lemma check_timeouts_removes_exactly_the_stale_witness :
  servers (snd (_check_timeouts_pass (Some (fun _ => Ok tt)) (seconds 17) two_servers))
    = [("10.0.0.3:5001", sample_entry (seconds 10) (Some 45%Q))] /\
  fst (_check_timeouts_pass (Some (fun _ => Ok tt)) (seconds 17) two_servers)
    = [sample_entry (seconds 1) None].
Proof.
  refine (check_timeouts_removes_exactly_the_stale (Some (fun _ => Ok tt)) (seconds 17)
            two_servers _ _).
  - apply NoDup_cons. split; [|apply NoDup_singleton].
    rewrite list_elem_of_singleton. discriminate.
  - intros cb s [= <-]. now exists tt.
Defined.

Lemma collect_timed_out_raises (cb : callback) now timeout (d : dict ServerInfo) s e :
  s ∈ dict_values d -> is_timed_out now timeout s = true -> cb s = Raise e ->
  exists e' calls, collect_timed_out (Some cb) now timeout d = (Raise e', calls).
Proof.
  intros Hin Ht He. induction d as [|[k s0] d IH]; [now apply elem_of_nil in Hin|].
  unfold dict_values in Hin. simpl in Hin. apply elem_of_cons in Hin. simpl.
  destruct (is_timed_out now timeout s0) eqn:Ht0.
  - destruct (cb s0) as [u|e0] eqn:Hcb; [|eauto].
    destruct Hin as [-> | Hin]; [congruence|].
    destruct (IH Hin) as (e' & calls & ->). eauto.
  - destruct Hin as [-> | Hin]; [congruence|]. exact (IH Hin).
Qed.

(** X2.  When [on_server_lost] raises on a server that has timed out, the
    sweep removes nothing: the table is as before, the stale entries
    included. *)
Theorem check_timeouts_keeps_table_when_callback_raises
    (cb : callback) (now : datetime) (c : t) (s : ServerInfo) (e : exn) :
  s ∈ get_available_servers c ->
  is_timed_out now (server_timeout c) s = true ->
  cb s = Raise e ->
  snd (_check_timeouts_pass (Some cb) now c) = c.
Proof.
  intros Hin Ht He. unfold _check_timeouts_pass.
  destruct (collect_timed_out_raises cb now (server_timeout c) (servers c) s e Hin Ht He)
    as (e' & calls & ->).
  reflexivity.
Qed.

Lemma check_timeouts_keeps_table_when_callback_raises_witness :
  snd (_check_timeouts_pass (Some (fun _ => Raise ValueError)) (seconds 17) two_servers)
    = two_servers.
Proof.
  refine (check_timeouts_keeps_table_when_callback_raises (fun _ => Raise ValueError)
            (seconds 17) two_servers (sample_entry (seconds 1) None) ValueError _ _ _).
  - apply list_elem_of_here.
  - reflexivity.
  - reflexivity.
Defined.

Lemma collect_timed_out_ids on_lost now timeout (d : list (string * ServerInfo)) ids calls :
  collect_timed_out on_lost now timeout d = (Ok ids, calls) ->
  forall k, k ∈ ids -> exists s, (k, s) ∈ d /\ is_timed_out now timeout s = true.
Proof.
  revert ids calls. induction d as [|[k0 s0] d IH]; intros ids calls; simpl.
  - intros [= <- _] k Hk. now apply elem_of_nil in Hk.
  - destruct (is_timed_out now timeout s0) eqn:Ht0.
    + destruct (collect_timed_out on_lost now timeout d) as [[ids'|e'] calls'] eqn:Hc.
      * intros Heq k Hk.
        assert (Hids : ids = k0 :: ids').
        { destruct on_lost as [cb|]; [destruct (cb s0)|]; congruence. }
        subst ids. apply elem_of_cons in Hk as [-> | Hk].
        -- exists s0. split; [apply list_elem_of_here|exact Ht0].
        -- destruct (IH _ _ eq_refl k Hk) as (s & Hs & Hts).
           exists s. split; [now apply list_elem_of_further|exact Hts].
      * intros Heq. destruct on_lost as [cb|]; [destruct (cb s0)|]; discriminate.
    + intros Heq k Hk. destruct (IH _ _ Heq k Hk) as (s & Hs & Hts).
      exists s. split; [now apply list_elem_of_further|exact Hts].
Qed.

Lemma dict_get_elem_NoDup {V} k (v : V) (d : list (string * V)) :
  NoDup (dict_keys d) -> (k, v) ∈ d -> dict_get k d = Some v.
Proof.
  induction d as [|[k0 v0] d IH]; intros Hnd Hin; [now apply elem_of_nil in Hin|].
  simpl in Hnd. apply NoDup_cons in Hnd as [Hk0 Hnd].
  apply elem_of_cons in Hin as [[= -> ->] | Hin]; simpl.
  - now rewrite String.eqb_refl.
  - destruct (String.eqb k k0) eqn:E; [|now apply IH].
    apply String.eqb_eq in E. subst k0. exfalso. apply Hk0.
    unfold dict_keys. apply list_elem_of_In, in_map_iff.
    exists (k, v). split; [reflexivity|now apply list_elem_of_In].
Qed.

Lemma dict_get_del_ne {V} k k' (d : list (string * V)) :
  k <> k' -> dict_get k' (dict_del k d) = dict_get k' d.
Proof.
  intros Hne. induction d as [|[k0 v0] d IH]; [reflexivity|]. simpl.
  destruct (String.eqb k k0) eqn:E; simpl.
  - apply String.eqb_eq in E. subst k0.
    destruct (String.eqb k' k) eqn:E'; [|reflexivity].
    apply String.eqb_eq in E'. congruence.
  - now rewrite IH.
Qed.

Lemma fold_del_get_notin {V} k ids (d : list (string * V)) :
  k ∉ ids ->
  dict_get k (fold_left (fun (d : list (string * V)) sid => dict_del sid d) ids d)
  = dict_get k d.
Proof.
  revert d. induction ids as [|i ids IH]; intros d Hk; [reflexivity|].
  apply not_elem_of_cons in Hk as [Hne Hk]. simpl.
  rewrite IH by exact Hk. apply dict_get_del_ne. congruence.
Qed.

(** An entry that has not timed out is still there after the sweep,
    whatever the callback does. *)
Lemma check_timeouts_keeps_fresh on_lost now c sid s :
  NoDup (dict_keys (servers c)) ->
  dict_get sid (servers c) = Some s ->
  is_timed_out now (server_timeout c) s = false ->
  dict_get sid (servers (snd (_check_timeouts_pass on_lost now c))) = Some s.
Proof.
  intros Hnd Hget Hfresh. unfold _check_timeouts_pass.
  destruct (collect_timed_out on_lost now (server_timeout c) (servers c))
    as [[ids|e] calls] eqn:Hc; [|exact Hget].
  simpl. unfold dict in *. rewrite fold_del_get_notin; [exact Hget|].
  intros Hin. destruct (collect_timed_out_ids _ _ _ _ _ _ Hc sid Hin) as (s' & Hs' & Ht).
  rewrite (dict_get_elem_NoDup _ _ _ Hnd Hs') in Hget. congruence.
Qed.

Lemma receive_timeout d c : server_timeout (receive d c) = server_timeout c.
Proof.
  destruct d as [[info addr] now]. unfold receive, _update_server_info.
  destruct (item "port" (info_port info)); [|reflexivity].
  destruct (new_entry info addr now); [|reflexivity].
  destruct (negb _); [destruct (on_server_found c)|]; reflexivity.
Qed.

(** X3.  A server whose announcement was received at [seen] is in the
    table, with the entry of that announcement, after every sweep made no
    later than [server_timeout] seconds after [seen], whether or not the
    callback of the sweep raises. *)
Theorem announced_server_survives_sweep
    (on_lost : option callback) (info : announcement) (addr : string)
    (seen now : datetime) (e : ServerInfo) (sid : string) (c : t) :
  NoDup (dict_keys (servers c)) ->
  datagram_id (info, addr, seen) = Some sid ->
  new_entry info addr seen = Ok e ->
  now - seen <= seconds (server_timeout c) ->
  dict_get sid (servers (snd (_check_timeouts_pass on_lost now
                                (receive (info, addr, seen) c)))) = Some e.
Proof.
  intros Hnd Hid He Hle.
  apply check_timeouts_keeps_fresh.
  - now apply receive_NoDup.
  - now apply receive_stores.
  - rewrite receive_timeout. unfold is_timed_out.
    destruct (new_entry_fields _ _ _ _ He) as (-> & _). apply Z.ltb_ge. exact Hle.
Qed.

(** Announced at 6 s, swept at 21 s: exactly the timeout, still known. *)
Lemma announced_server_survives_sweep_witness :
  dict_get "10.0.0.2:5001"
    (servers (snd (_check_timeouts_pass None (seconds 21)
                     (receive (sample_announcement, "10.0.0.2", seconds 6) measured_client))))
  = Some (sample_entry (seconds 6) None).
Proof.
  refine (announced_server_survives_sweep None sample_announcement "10.0.0.2"
            (seconds 6) (seconds 21) (sample_entry (seconds 6) None) "10.0.0.2:5001"
            measured_client _ _ _ _).
  - apply NoDup_singleton.
  - reflexivity.
  - reflexivity.
  - vm_compute. discriminate.
Defined.

Lemma check_latency_pass_keys probe c :
  dict_keys (servers (_check_latency_pass probe c)) = dict_keys (servers c).
Proof.
  unfold _check_latency_pass, dict_keys. simpl. rewrite map_map. reflexivity.
Qed.

Lemma check_latency_pass_latency probe c s :
  s ∈ get_available_servers (_check_latency_pass probe c) ->
  latency s = probe (address s) (port s).
Proof.
  unfold get_available_servers, dict_values, _check_latency_pass. simpl.
  rewrite map_map. intros Hin. apply list_elem_of_In, in_map_iff in Hin as (kv & <- & _).
  reflexivity.
Qed.

(** X4.  A probe pass removes no server and adds none, whatever the
    probes answer; a pass in which every connect fails leaves all servers
    listed by [get_available_servers] and none for [get_best_server]. *)
Theorem failed_probes_keep_servers_known (probe : string -> Z -> option Q) (c : t) :
  dict_keys (servers (_check_latency_pass probe c)) = dict_keys (servers c) /\
  length (get_available_servers (_check_latency_pass (fun _ _ => None) c))
    = length (get_available_servers c) /\
  fst (get_best_server (_check_latency_pass (fun _ _ => None) c)) = None.
Proof.
  split; [apply check_latency_pass_keys|]. split.
  - unfold get_available_servers, dict_values, _check_latency_pass. simpl.
    now rewrite !length_map.
  - unfold get_best_server.
    destruct (filter _ (dict_values (servers _))) as [|r l] eqn:Hf; [reflexivity|].
    assert (Hr : r ∈ r :: l) by apply list_elem_of_here.
    rewrite <- Hf in Hr. apply list_elem_of_filter in Hr as [Hc Hin].
    apply is_candidate_spec in Hc as [_ [q Hq]].
    apply (check_latency_pass_latency (fun _ _ => None)) in Hin. congruence.
Qed.

End DiscoveryClient.

(** ** The connection registry and dispatcher
       ([server/src/network/network_manager.py]) *)

Module NetworkManager.
Import Py.

(** A connected socket as the registry sees it: its descriptor, and
    whether the connection behind it is broken, in which case [sendall]
    raises. *)
Record socket : Type := mkSocket {
  fileno : Z;
  broken : bool
}.

Section WithApplication.

(** The state of the application the handlers belong to. *)
Variable App : Type.

(** A registered handler: called with the message and the client address,
    it returns or raises, and may change the application state. *)
Definition handler : Type := json -> string -> App -> result unit * App.

(** The attributes of [NetworkManager], and the frames written to the
    sockets so far (oldest first). *)
Record t : Type := mkManager {
  clients : gmap string socket;
  client_status : gmap string string;
  message_handlers : gmap string handler;
  sent : list (string * json)
}.

Definition with_clients (cl : gmap string socket) (st : gmap string string) (nm : t) : t :=
  {| clients := cl; client_status := st;
     message_handlers := message_handlers nm; sent := sent nm |}.

(** [register_handler] *)
Definition register_handler (message_type : string) (h : handler) (nm : t) : t :=
  {| clients := clients nm; client_status := client_status nm;
     message_handlers := <[message_type := h]> (message_handlers nm);
     sent := sent nm |}.

(** [get_client_status] *)
Definition get_client_status (client_ip : string) (nm : t) : string :=
  default "offline" (client_status nm !! client_ip).

(** [get_connected_clients], as a set. *)
Definition get_connected_clients (nm : t) : gset string := dom (clients nm).

(** [socket.close()]; what it raises is swallowed by the bare [except]. *)
Definition close_socket (s : socket) : result unit :=
  if broken s then Raise OSError else Ok tt.

(** [_remove_client] *)
Definition _remove_client (client_ip : string) (nm : t) : t :=
  match clients nm !! client_ip with
  | Some s =>
    let _ := close_socket s in
    with_clients (delete client_ip (clients nm))
                 (<[client_ip := "offline"]> (client_status nm)) nm
  | None => nm
  end.

(** [socket.sendall(...)] of an encoded frame. *)
Definition sendall (s : socket) (message : json) : result unit :=
  if broken s then Raise OSError else Ok tt.

(** [send_message]: the value returned or the exception raised, and the
    manager afterwards. *)
Definition send_message (client_ip : string) (message : json) (nm : t)
    : result bool * t :=
  match clients nm !! client_ip with
  | None => (Ok false, nm)
  | Some s =>
    match sendall s message with
    | Ok _ =>
      (Ok true,
       {| clients := clients nm; client_status := client_status nm;
          message_handlers := message_handlers nm;
          sent := sent nm ++ [(client_ip, message)] |})
    | Raise _ => (Ok false, _remove_client client_ip nm)
    end
  end.

(** [message.get('type')]: only a [dict] has a [get]. *)
Definition get_type (message : json) : result json :=
  match message with
  | JDict d => Ok (default JNull (dict_get "type" d))
  | _ => Raise AttributeError
  end.

(** [hash(v)] succeeds on everything but a list and a dict. *)
Definition hashable (v : json) : bool :=
  match v with
  | JList _ | JDict _ => false
  | _ => true
  end.

(** [message_type in self.message_handlers] and the lookup that follows:
    the keys are strings, so only a string can be found. *)
Definition find_handler (message_type : json) (nm : t) : result (option handler) :=
  match message_type with
  | JStr ty => Ok (message_handlers nm !! ty)
  | JList _ | JDict _ => Raise TypeError
  | _ => Ok None
  end.

(** [_process_message]: the [try] encloses the call of the handler and
    nothing else. *)
Definition _process_message (message : json) (client_ip : string) (nm : t)
    (app : App) : result unit * App :=
  match get_type message with
  | Raise e => (Raise e, app)
  | Ok message_type =>
    match find_handler message_type nm with
    | Raise e => (Raise e, app)
    | Ok None => (Ok tt, app)
    | Ok (Some h) =>
      match h message client_ip app with
      | (Ok _, app') => (Ok tt, app')
      | (Raise _, app') => (Ok tt, app')
      end
    end
  end.

(** What one [recv] followed by [json.loads] yields: a decoded value or
    a decoding error, end of stream, or a socket error. *)
Inductive received : Type :=
| Data (decoded : result json)
| Eof
| RecvError (e : exn).

(** How far the reader got: left the [while] loop, or consumed all the
    input given and sits in [recv]. *)
Inductive reader : Type :=
| Exited
| Receiving.

(** The [while True] loop of [_handle_client] over the input that arrives;
    every [except] clause of the loop body ends in [break]. *)
Fixpoint reader_loop (inputs : list received) (client_ip : string) (nm : t)
    (app : App) : reader * App :=
  match inputs with
  | [] => (Receiving, app)
  | Eof :: _ => (Exited, app)
  | RecvError _ :: _ => (Exited, app)
  | Data (Raise _) :: _ => (Exited, app)
  | Data (Ok message) :: rest =>
    match _process_message message client_ip nm app with
    | (Ok _, app') => reader_loop rest client_ip nm app'
    | (Raise _, app') => (Exited, app')
    end
  end.

(** [_handle_client]: register the connection, read, and on leaving the
    loop run the [finally] clause. *)
Definition _handle_client (client_socket : socket) (client_ip : string)
    (inputs : list received) (nm : t) (app : App) : reader * t * App :=
  let nm1 := with_clients (<[client_ip := client_socket]> (clients nm))
                          (<[client_ip := "online"]> (client_status nm)) nm in
  match reader_loop inputs client_ip nm1 app with
  | (Exited, app') => (Exited, _remove_client client_ip nm1, app')
  | (Receiving, app') => (Receiving, nm1, app')
  end.

End WithApplication.

Arguments clients {App} _.
Arguments client_status {App} _.
Arguments message_handlers {App} _.
Arguments sent {App} _.
Arguments with_clients {App} _ _ _.
Arguments register_handler {App} _ _ _.
Arguments get_client_status {App} _ _.
Arguments get_connected_clients {App} _.
Arguments _remove_client {App} _ _.
Arguments send_message {App} _ _ _.
Arguments find_handler {App} _ _.
Arguments _process_message {App} _ _ _ _.
Arguments reader_loop {App} _ _ _ _.
Arguments _handle_client {App} _ _ _ _ _.

(** *** Sending never raises, and evicts on failure *)

(** C6.  [send_message] always returns a boolean.  With no connection
    registered for the address it returns [False] and changes nothing.
    When [sendall] raises, it returns [False], the connection is no longer
    registered, [get_client_status] answers ["offline"] for it, and the
    socket and status of every other address are as before.  When
    [sendall] succeeds it returns [True] and both tables are unchanged. *)
Theorem send_message_returns_bool {App} (client_ip : string) (message : json)
    (nm : t App) :
  exists b : bool,
    fst (send_message client_ip message nm) = Ok b /\
    let nm' := snd (send_message client_ip message nm) in
    match clients nm !! client_ip with
    | None => b = false /\ nm' = nm
    | Some s =>
      if broken s then
        b = false /\
        clients nm' !! client_ip = None /\
        get_client_status client_ip nm' = "offline" /\
        forall ip, ip <> client_ip ->
          clients nm' !! ip = clients nm !! ip /\
          client_status nm' !! ip = client_status nm !! ip
      else
        b = true /\ clients nm' = clients nm /\
        client_status nm' = client_status nm
    end.
Proof.
  unfold send_message.
  destruct (clients nm !! client_ip) as [s|] eqn:Hs.
  - unfold sendall. destruct (broken s) eqn:Hb; simpl.
    + exists false. split; [reflexivity|].
      unfold _remove_client, get_client_status. rewrite Hs. simpl.
      split; [reflexivity|]. split; [apply lookup_delete_eq|].
      split; [now rewrite lookup_insert_eq|].
      intros ip Hne. split.
      * now apply lookup_delete_ne.
      * now apply lookup_insert_ne.
    + exists true. repeat split.
  - exists false. simpl. repeat split.
Qed.

(** Two terminals, the first with a dead connection. *)
Example send_message_evicts_only_the_failed_client :
  let nm : t unit :=
    {| clients := <["10.0.0.7" := mkSocket 7 true]> (<["10.0.0.8" := mkSocket 8 false]> ∅);
       client_status := <["10.0.0.7" := "online"]> (<["10.0.0.8" := "online"]> ∅);
       message_handlers := ∅; sent := [] |} in
  let '(r, nm') := send_message "10.0.0.7" (JDict [("type", JStr "end_session")]) nm in
  r = Ok false /\ clients nm' !! "10.0.0.7" = None /\
  get_client_status "10.0.0.7" nm' = "offline" /\
  clients nm' !! "10.0.0.8" = Some (mkSocket 8 false) /\
  get_client_status "10.0.0.8" nm' = "online".
Proof. vm_compute. repeat split. Qed.

(** *** Dispatch *)

(** C7, as stated, fails.  A decoded value that is not an object has no
    [get], and a type that is a list cannot be looked up in the handler
    table: both errors are raised outside the [try] of [_process_message],
    reach [_handle_client], and end its loop with the next message
    unread. *)
Lemma dispatch_never_raises_counterexample :
  let nm : t unit :=
    {| clients := ∅; client_status := ∅;
       message_handlers := <["status_update" := fun _ _ a => (Ok tt, a)]> ∅;
       sent := [] |} in
  fst (_process_message (JList []) "10.0.0.7" nm tt) = Raise AttributeError /\
  fst (_process_message (JDict [("type", JList [])]) "10.0.0.7" nm tt) = Raise TypeError /\
  fst (reader_loop [Data (Ok (JList []));
                    Data (Ok (JDict [("type", JStr "status_update")]))]
                   "10.0.0.7" nm tt) = Exited.
Proof. repeat split. Qed.

(** C7, amended.  For a decoded message that is an object whose type is
    absent or hashable, dispatch returns normally: without a handler
    registered under the type the message is dropped and the application
    state is left alone; with one, the handler runs, and whether it returns
    or raises, dispatch returns and the reader loop goes on with the input
    that follows. *)
Theorem dispatch_contains_handler_errors {App} (d : dict json)
    (client_ip : string) (nm : t App) (app : App) :
  hashable (default JNull (dict_get "type" d)) = true ->
  exists app',
    _process_message (JDict d) client_ip nm app = (Ok tt, app') /\
    match default JNull (dict_get "type" d) with
    | JStr ty =>
      match message_handlers nm !! ty with
      | Some h => app' = snd (h (JDict d) client_ip app)
      | None => app' = app
      end
    | _ => app' = app
    end /\
    forall rest,
      reader_loop (Data (Ok (JDict d)) :: rest) client_ip nm app =
      reader_loop rest client_ip nm app'.
Proof.
  intros Hh. unfold _process_message, reader_loop at 1, _process_message. simpl get_type.
  destruct (default JNull (dict_get "type" d)) as [| | | |ty| |] eqn:Hty;
    simpl in Hh |- *; try discriminate; eauto.
  destruct (message_handlers nm !! ty) as [h|]; [|eauto].
  destruct (h (JDict d) client_ip app) as [[u|e] app'] eqn:Hcall; simpl; eauto.
Qed.

(** A handler that raises [KeyError] after counting the call: the loop
    dispatches the next message to it as well. *)
Lemma dispatch_contains_handler_errors_witness :
  let h : handler nat := fun _ _ n => (Raise (KeyError "status"), S n) in
  let nm : t nat :=
    {| clients := ∅; client_status := ∅;
       message_handlers := <["status_update" := h]> ∅; sent := [] |} in
  let m := [("type", JStr "status_update")] in
  reader_loop [Data (Ok (JDict m)); Data (Ok (JDict m))] "10.0.0.7" nm 0%nat
  = (Receiving, 2%nat).
Proof.
  intros h nm m.
  destruct (dispatch_contains_handler_errors m "10.0.0.7" nm 0%nat eq_refl)
    as (app' & Hp & _ & Hloop).
  rewrite Hloop. injection Hp as <-. reflexivity.
Defined.

(** *** Broadcast, shutdown and the life of a connection *)

(** [broadcast_message]: [send_message] to each address registered when
    the call starts.  The addresses are visited in the order of the table;
    nothing below depends on that order. *)
Definition broadcast_message {App} (message : json) (nm : t App) : t App :=
  fold_left (fun nm ip => snd (send_message ip message nm))
            (map_to_list (clients nm)).*1 nm.

(** [close()], on the two tables: [_remove_client] for each address
    registered when the call starts. *)
Definition close {App} (nm : t App) : t App :=
  fold_left (fun nm ip => _remove_client ip nm) (map_to_list (clients nm)).*1 nm.

(** The frames written to the socket of [client_ip]. *)
Definition frames_for {App} (client_ip : string) (nm : t App) : list (string * json) :=
  filter (fun f => fst f = client_ip) (sent nm).

(** What [send_message] to a live, a dead or an unregistered connection
    does to the entry, the status and the frames of address [ip]. *)
Definition delivered {App} (message : json) (ip : string) (nm nm' : t App) : Prop :=
  match clients nm !! ip with
  | Some s =>
    if broken s then
      clients nm' !! ip = None /\ client_status nm' !! ip = Some "offline" /\
      frames_for ip nm' = frames_for ip nm
    else
      clients nm' !! ip = Some s /\ client_status nm' !! ip = client_status nm !! ip /\
      frames_for ip nm' = frames_for ip nm ++ [(ip, message)]
  | None =>
    clients nm' !! ip = None /\ client_status nm' !! ip = client_status nm !! ip /\
    frames_for ip nm' = frames_for ip nm
  end.

Definition untouched {App} (ip : string) (nm nm' : t App) : Prop :=
  clients nm' !! ip = clients nm !! ip /\
  client_status nm' !! ip = client_status nm !! ip /\
  frames_for ip nm' = frames_for ip nm.

Lemma remove_client_other {App} ip ip' (nm : t App) :
  ip <> ip' -> untouched ip' nm (_remove_client ip nm).
Proof.
  intros Hne. unfold untouched, _remove_client, frames_for.
  destruct (clients nm !! ip); simpl; [|easy].
  now rewrite lookup_delete_ne, lookup_insert_ne.
Qed.

Lemma remove_client_self {App} ip (nm : t App) :
  clients (_remove_client ip nm) !! ip = None /\
  sent (_remove_client ip nm) = sent nm /\
  (is_Some (clients nm !! ip) -> client_status (_remove_client ip nm) !! ip = Some "offline") /\
  (clients nm !! ip = None -> _remove_client ip nm = nm).
Proof.
  unfold _remove_client. destruct (clients nm !! ip) eqn:E; simpl.
  - rewrite lookup_delete_eq, lookup_insert_eq. repeat split. intros [=].
  - repeat split; [exact E|]. intros [? [=]].
Qed.

Lemma send_message_other {App} message ip ip' (nm : t App) :
  ip <> ip' -> untouched ip' nm (snd (send_message ip message nm)).
Proof.
  intros Hne. unfold send_message.
  destruct (clients nm !! ip) as [s|]; [|easy].
  destruct (sendall s message); simpl.
  - unfold untouched, frames_for. simpl. repeat split.
    rewrite filter_app. rewrite (filter_cons_False (fun f => fst f = ip')) by (simpl; congruence).
    apply app_nil_r.
  - now apply remove_client_other.
Qed.

Lemma send_message_self {App} message ip (nm : t App) :
  delivered message ip nm (snd (send_message ip message nm)).
Proof.
  unfold delivered, send_message, sendall.
  destruct (clients nm !! ip) as [s|] eqn:E; [|easy].
  destruct (broken s) eqn:Hb; simpl.
  - destruct (remove_client_self ip nm) as (H1 & H2 & H3 & _).
    split; [exact H1|]. split; [apply H3; rewrite E; eauto|].
    unfold frames_for. now rewrite H2.
  - split; [exact E|]. split; [reflexivity|].
    unfold frames_for. simpl. rewrite filter_app.
    now rewrite (filter_cons_True (fun f => fst f = ip) (ip, message) [] eq_refl).
Qed.

Lemma untouched_trans {App} ip (a b c : t App) :
  untouched ip a b -> untouched ip b c -> untouched ip a c.
Proof. intros (H1 & H2 & H3) (H4 & H5 & H6). repeat split; congruence. Qed.

Lemma delivered_untouched_l {App} message ip (a b c : t App) :
  untouched ip a b -> delivered message ip b c -> delivered message ip a c.
Proof.
  intros (H1 & H2 & H3). unfold delivered. rewrite H1, H2, H3. easy.
Qed.

Lemma delivered_untouched_r {App} message ip (a b c : t App) :
  delivered message ip a b -> untouched ip b c -> delivered message ip a c.
Proof.
  intros Hd (H1 & H2 & H3). unfold delivered in *. rewrite H1, H2, H3. exact Hd.
Qed.

Lemma fold_send_spec {App} message ips ip (nm : t App) :
  NoDup ips ->
  let nm' := fold_left (fun nm ip => snd (send_message ip message nm)) ips nm in
  (ip ∉ ips -> untouched ip nm nm') /\ (ip ∈ ips -> delivered message ip nm nm').
Proof.
  revert nm. induction ips as [|i ips IH]; intros nm Hnd; simpl.
  - split; [easy|]. intros H. now apply elem_of_nil in H.
  - apply NoDup_cons in Hnd as [Hi Hnd].
    destruct (IH (snd (send_message i message nm)) Hnd) as [IHout IHin]. split.
    + intros Hout. apply not_elem_of_cons in Hout as [Hne Hout].
      eapply untouched_trans; [apply (send_message_other message i ip); congruence|auto].
    + intros Hin. apply elem_of_cons in Hin as [-> | Hin].
      * eapply delivered_untouched_r; [apply (send_message_self message i)|auto].
      * assert (Hne : i <> ip) by (intros ->; contradiction).
        eapply delivered_untouched_l; [apply (send_message_other message i ip _ Hne)|auto].
Qed.

Lemma registered_keys {App} (nm : t App) ip :
  ip ∈ (map_to_list (clients nm)).*1 <-> is_Some (clients nm !! ip).
Proof.
  rewrite list_elem_of_fmap. split.
  - intros ([k s] & -> & Hin). apply elem_of_map_to_list in Hin. simpl. eauto.
  - intros [s Hs]. exists (ip, s). split; [reflexivity|]. now apply elem_of_map_to_list.
Qed.

(** X5.  [broadcast_message] treats every address on its own.  A client
    with a live connection stays registered and gets the message once; a
    client whose send fails is evicted and marked offline, and that stops
    the message for nobody else. *)
Theorem broadcast_isolates_failures {App} (message : json) (nm : t App) (ip : string) :
  delivered message ip nm (broadcast_message message nm).
Proof.
  unfold broadcast_message.
  destruct (fold_send_spec message (map_to_list (clients nm)).*1 ip nm
              (NoDup_fst_map_to_list _)) as [Hout Hin].
  destruct (clients nm !! ip) as [s|] eqn:E.
  - apply Hin, registered_keys. rewrite E. eauto.
  - assert (Hn : ip ∉ (map_to_list (clients nm)).*1).
    { rewrite registered_keys, E. intros [? [=]]. }
    destruct (Hout Hn) as (H1 & H2 & H3). unfold delivered. rewrite E.
    repeat split; congruence.
Qed.

Lemma fold_remove_spec {App} ips ip (nm : t App) :
  NoDup ips ->
  let nm' := fold_left (fun nm ip => _remove_client ip nm) ips nm in
  (ip ∉ ips -> untouched ip nm nm') /\
  (ip ∈ ips -> clients nm' !! ip = None /\
               (is_Some (clients nm !! ip) -> client_status nm' !! ip = Some "offline")).
Proof.
  revert nm. induction ips as [|i ips IH]; intros nm Hnd; simpl.
  - split; [easy|]. intros H. now apply elem_of_nil in H.
  - apply NoDup_cons in Hnd as [Hi Hnd].
    destruct (IH (_remove_client i nm) Hnd) as [IHout IHin]. split.
    + intros Hout. apply not_elem_of_cons in Hout as [Hne Hout].
      eapply untouched_trans; [apply (remove_client_other i ip); congruence|auto].
    + intros Hin. apply elem_of_cons in Hin as [-> | Hin].
      * destruct (IHout Hi) as (H1 & H2 & _).
        destruct (remove_client_self i nm) as (Hgone & _ & Hoff & _).
        split; [congruence|]. intros Hs. rewrite H2. now apply Hoff.
      * assert (Hne : i <> ip) by (intros ->; contradiction).
        destruct (IHin Hin) as [H1 H2]. split; [exact H1|]. intros Hs. apply H2.
        destruct (remove_client_other i ip nm Hne) as (Hc & _). now rewrite Hc.
Qed.

(** X6.  After [close()] no connection is registered; every client that
    was connected reads as offline, and the status of the others is what
    it was. *)
Theorem close_evicts_everyone {App} (nm : t App) (ip : string) :
  clients (close nm) = ∅ /\
  match clients nm !! ip with
  | Some _ => get_client_status ip (close nm) = "offline"
  | None => get_client_status ip (close nm) = get_client_status ip nm
  end.
Proof.
  assert (Hall : forall k, clients (close nm) !! k = None).
  { intros k. unfold close.
    destruct (fold_remove_spec (map_to_list (clients nm)).*1 k nm
                (NoDup_fst_map_to_list _)) as [Hout Hin].
    destruct (clients nm !! k) as [s|] eqn:E.
    - apply Hin, registered_keys. rewrite E. eauto.
    - assert (Hn : k ∉ (map_to_list (clients nm)).*1).
      { rewrite registered_keys, E. intros [? [=]]. }
      destruct (Hout Hn) as (-> & _). exact E. }
  split; [apply map_eq; intros k; rewrite Hall; now rewrite lookup_empty|].
  unfold close, get_client_status.
  destruct (fold_remove_spec (map_to_list (clients nm)).*1 ip nm
              (NoDup_fst_map_to_list _)) as [Hout Hin].
  destruct (clients nm !! ip) as [s|] eqn:E.
  - assert (Hk : ip ∈ (map_to_list (clients nm)).*1) by (apply registered_keys; rewrite E; eauto).
    destruct (Hin Hk) as [_ Hoff]. rewrite Hoff by eauto. reflexivity.
  - assert (Hn : ip ∉ (map_to_list (clients nm)).*1).
    { rewrite registered_keys, E. intros [? [=]]. }
    destruct (Hout Hn) as (_ & -> & _). reflexivity.
Qed.

(** X7.  When the reader of a connection has left its loop, the address
    is not registered and reads as offline; while it is still receiving,
    the address is registered with that socket and reads as online.  The
    entries of other addresses are as they were. *)
Theorem handle_client_tracks_status {App} (client_socket : socket) (client_ip : string)
    (inputs : list received) (nm : t App) (app : App) :
  let '(r, nm', _) := _handle_client client_socket client_ip inputs nm app in
  match r with
  | Exited =>
    clients nm' !! client_ip = None /\ get_client_status client_ip nm' = "offline"
  | Receiving =>
    clients nm' !! client_ip = Some client_socket /\
    get_client_status client_ip nm' = "online"
  end /\
  forall ip, ip <> client_ip ->
    clients nm' !! ip = clients nm !! ip /\
    client_status nm' !! ip = client_status nm !! ip.
Proof.
  unfold _handle_client.
  destruct (reader_loop inputs client_ip _ app) as [[|] app']; unfold get_client_status.
  - unfold _remove_client. simpl. rewrite lookup_insert_eq. simpl.
    rewrite lookup_delete_eq, lookup_insert_eq. split; [easy|].
    intros ip Hne. now rewrite lookup_delete_ne, !lookup_insert_ne by congruence.
  - simpl. rewrite !lookup_insert_eq. split; [easy|].
    intros ip Hne. now rewrite !lookup_insert_ne by congruence.
Qed.

(** What makes the loop [break]: end of stream, a socket error, or data
    that does not decode. *)
Definition ends_stream (r : received) : bool :=
  match r with
  | Eof | RecvError _ | Data (Raise _) => true
  | Data (Ok _) => false
  end.

(** X8.  The reader stops at the first end of stream, socket error or
    undecodable frame: it has left the loop, and nothing that arrives
    afterwards is read or dispatched. *)
Theorem reader_reads_nothing_after_a_bad_frame {App} (pre rest : list received)
    (stop : received) (client_ip : string) (nm : t App) (app : App) :
  ends_stream stop = true ->
  fst (reader_loop (pre ++ stop :: rest) client_ip nm app) = Exited /\
  reader_loop (pre ++ stop :: rest) client_ip nm app
    = reader_loop (pre ++ [stop]) client_ip nm app.
Proof.
  intros Hstop. revert app. induction pre as [|r pre IH]; intros app; simpl.
  - destruct stop as [[m|e]| |e]; try discriminate; now split.
  - destruct r as [[m|e]| |e]; try now split.
    destruct (_process_message m client_ip nm app) as [[u|e] app']; [apply IH|now split].
Qed.

Lemma reader_reads_nothing_after_a_bad_frame_witness :
  let h : handler nat := fun _ _ n => (Ok tt, S n) in
  let nm : t nat :=
    {| clients := ∅; client_status := ∅;
       message_handlers := <["status_update" := h]> ∅; sent := [] |} in
  let m := Data (Ok (JDict [("type", JStr "status_update")])) in
  reader_loop ([m] ++ Data (Raise JSONDecodeError) :: [m; m]) "10.0.0.7" nm 0%nat
  = (Exited, 1%nat).
Proof.
  intros h nm m.
  rewrite (proj2 (reader_reads_nothing_after_a_bad_frame [m] [m; m]
                    (Data (Raise JSONDecodeError)) "10.0.0.7" nm 0%nat eq_refl)).
  reflexivity.
Defined.

(** X9.  Connections are keyed by address alone.  When a second
    connection comes in from an address whose first reader is still
    receiving, the new socket takes the entry; when the first reader then
    leaves its loop, its [_remove_client] evicts the entry of the second
    connection, which reads as offline although its reader is running. *)
Theorem old_reader_evicts_new_connection {App} (s1 s2 : socket) (client_ip : string)
    (nm : t App) (app : App) :
  let '(r1, nm1, _) := _handle_client s1 client_ip [] nm app in
  let '(r2, nm2, _) := _handle_client s2 client_ip [] nm1 app in
  r1 = Receiving /\ r2 = Receiving /\
  clients nm2 !! client_ip = Some s2 /\
  clients (_remove_client client_ip nm2) !! client_ip = None /\
  get_client_status client_ip (_remove_client client_ip nm2) = "offline".
Proof.
  unfold _handle_client, _remove_client, get_client_status. simpl.
  rewrite !lookup_insert_eq. simpl. rewrite lookup_delete_eq, lookup_insert_eq. easy.
Qed.

(** X10.  Registering a handler for a type that has one replaces it:
    a message of that type is given to the new handler and not to the old
    one, and the handlers of other types are as they were. *)
Theorem register_handler_replaces {App} (ty : string) (h1 h2 : handler App)
    (d : dict json) (client_ip : string) (nm : t App) (app : App) :
  dict_get "type" d = Some (JStr ty) ->
  let nm' := register_handler ty h2 (register_handler ty h1 nm) in
  _process_message (JDict d) client_ip nm' app
    = (Ok tt, snd (h2 (JDict d) client_ip app)) /\
  forall ty', ty' <> ty -> message_handlers nm' !! ty' = message_handlers nm !! ty'.
Proof.
  intros Hty nm'. split.
  - unfold _process_message. simpl. rewrite Hty. simpl. rewrite lookup_insert_eq.
    now destruct (h2 (JDict d) client_ip app) as [[u|e] app'].
  - intros ty' Hne. subst nm'. simpl. now rewrite !lookup_insert_ne by congruence.
Qed.

Lemma register_handler_replaces_witness :
  let h1 : handler nat := fun _ _ n => (Ok tt, (n + 1)%nat) in
  let h2 : handler nat := fun _ _ n => (Ok tt, (n + 10)%nat) in
  let nm : t nat :=
    {| clients := ∅; client_status := ∅; message_handlers := ∅; sent := [] |} in
  _process_message (JDict [("type", JStr "session_end")]) "10.0.0.7"
    (register_handler "session_end" h2 (register_handler "session_end" h1 nm)) 0%nat
  = (Ok tt, 10%nat).
Proof.
  intros h1 h2 nm.
  exact (proj1 (register_handler_replaces "session_end" h1 h2
                  [("type", JStr "session_end")] "10.0.0.7" nm 0%nat eq_refl)).
Defined.

End NetworkManager.

(** ** The discovery broadcaster ([server/src/discovery_service.py]) *)

Module DiscoveryService.
Import Py.

Record NetworkInterface : Type := mkInterface {
  name : string;
  ip : string;
  broadcast : string;
  netmask : string
}.

(** The attributes of [DiscoveryService] the loop reads. *)
Record t : Type := mkService {
  port : Z;
  running : bool;
  thread_started : bool;
  network_interfaces : list NetworkInterface
}.

(** What the operating system answers: whether a socket can be created
    and bound to the address of an interface, and whether a datagram can
    be sent through it. *)
Record os : Type := mkOs {
  can_bind : NetworkInterface -> bool;
  can_send : NetworkInterface -> bool
}.

(** What the loop does that can be observed, in order. *)
Inductive event : Type :=
| SocketCreated (i : NetworkInterface)
| SocketFailed (i : NetworkInterface)
| NoValidInterfaces
| BroadcastSent (i : NetworkInterface)
| BroadcastFailed (i : NetworkInterface)
| Slept
| SocketClosed (i : NetworkInterface).

(** How a run of [_broadcast_loop] stands after the flag readings it was
    given: it returned for want of a socket, it returned because [running]
    was read false, or it is still inside the [while] loop. *)
Inductive outcome : Type :=
| ReturnedNoSockets
| ReturnedStopped
| StillBroadcasting.

(** [socket.socket(...)], the two [setsockopt] and [bind]. *)
Definition open_socket (w : os) (i : NetworkInterface) : result NetworkInterface :=
  if can_bind w i then Ok i else Raise OSError.

(** The first [for] loop: the sockets that could be bound, and the log. *)
Fixpoint create_sockets (w : os) (ifaces : list NetworkInterface)
    : list NetworkInterface * list event :=
  match ifaces with
  | [] => ([], [])
  | i :: rest =>
    let '(socks, evs) := create_sockets w rest in
    match open_socket w i with
    | Ok s => (s :: socks, SocketCreated i :: evs)
    | Raise _ => (socks, SocketFailed i :: evs)
    end
  end.

(** One tick: a datagram on every socket, each failure caught on its own,
    then the sleep. *)
Definition broadcast_once (w : os) (socks : list NetworkInterface) : list event :=
  map (fun i => if can_send w i then BroadcastSent i else BroadcastFailed i) socks
  ++ [Slept].

(** The [while self.running] loop; [flags] are the successive readings of
    [self.running]. *)
Fixpoint broadcast_ticks (w : os) (socks : list NetworkInterface) (flags : list bool)
    : outcome * list event :=
  match flags with
  | [] => (StillBroadcasting, [])
  | false :: _ => (ReturnedStopped, [])
  | true :: flags' =>
    let '(o, evs) := broadcast_ticks w socks flags' in
    (o, broadcast_once w socks ++ evs)
  end.

(** [_broadcast_loop].  The [finally] clause closes the sockets when the
    function returns. *)
Definition _broadcast_loop (w : os) (flags : list bool) (svc : t)
    : outcome * list event :=
  let '(socks, evs) := create_sockets w (network_interfaces svc) in
  match socks with
  | [] => (ReturnedNoSockets, evs ++ [NoValidInterfaces])
  | _ :: _ =>
    let '(o, evs') := broadcast_ticks w socks flags in
    (o, evs ++ evs' ++
        match o with
        | StillBroadcasting => []
        | _ => map SocketClosed socks
        end)
  end.

(** [start()]: whether a broadcast thread was launched, and the service
    afterwards. *)
Definition start (svc : t) : bool * t :=
  if running svc then (false, svc)
  else (true, {| port := port svc; running := true; thread_started := true;
                 network_interfaces := network_interfaces svc |}).

Definition is_broadcast (e : event) : bool :=
  match e with BroadcastSent _ => true | _ => false end.

Definition is_attempt (e : event) : bool :=
  match e with SocketCreated _ | SocketFailed _ => true | _ => false end.

(** *** No usable interface *)

Lemma create_sockets_none w ifaces :
  Forall (fun i => can_bind w i = false) ifaces ->
  create_sockets w ifaces = ([], map SocketFailed ifaces).
Proof.
  induction 1 as [|i rest Hi _ IH]; simpl; [reflexivity|].
  rewrite IH. unfold open_socket. now rewrite Hi.
Qed.

Lemma failed_sockets_no_broadcast l :
  filter (fun e => is_broadcast e = true) (map SocketFailed l) = [].
Proof. induction l as [|i l IH]; [reflexivity|exact IH]. Qed.

Lemma failed_sockets_attempts l :
  length (filter (fun e => is_attempt e = true) (map SocketFailed l)) = length l.
Proof. induction l as [|i l IH]; [reflexivity|]. simpl. now rewrite IH. Qed.

(** C8, as stated, fails.  One interface that cannot be bound, and a
    service that stays running for three more flag readings: the loop has
    returned, having tried the interface once. *)
Lemma broadcaster_keeps_retrying_counterexample :
  let eth0 := mkInterface "eth0" "192.168.1.10" "192.168.1.255" "255.255.255.0" in
  let w := mkOs (fun _ => false) (fun _ => true) in
  let svc := {| port := 5000; running := true; thread_started := true;
                network_interfaces := [eth0] |} in
  _broadcast_loop w [true; true; true] svc
    = (ReturnedNoSockets, [SocketFailed eth0; NoValidInterfaces]) /\
  fst (_broadcast_loop w [true; true; true] svc) <> StillBroadcasting /\
  fst (start svc) = false.
Proof. repeat split. discriminate. Qed.

(** C8, amended.  When no interface can be bound, [_broadcast_loop]
    returns normally after one attempt per interface and one error report,
    however long the service keeps running: nothing is broadcast and no
    interface is tried again.  The [running] flag is left set, so a later
    [start()] launches nothing. *)
Theorem broadcaster_gives_up_without_interfaces (w : os) (flags : list bool) (svc : t) :
  Forall (fun i => can_bind w i = false) (network_interfaces svc) ->
  running svc = true ->
  _broadcast_loop w flags svc =
    (ReturnedNoSockets, map SocketFailed (network_interfaces svc) ++ [NoValidInterfaces]) /\
  filter (fun e => is_broadcast e = true) (snd (_broadcast_loop w flags svc)) = [] /\
  length (filter (fun e => is_attempt e = true) (snd (_broadcast_loop w flags svc)))
    = length (network_interfaces svc) /\
  start svc = (false, svc).
Proof.
  intros Hnone Hrun. unfold _broadcast_loop, start.
  rewrite (create_sockets_none _ _ Hnone), Hrun. simpl.
  split; [reflexivity|]. split.
  - rewrite filter_app, failed_sockets_no_broadcast. reflexivity.
  - split; [|reflexivity].
    rewrite filter_app, length_app, failed_sockets_attempts. simpl. lia.
Qed.

Lemma broadcaster_gives_up_without_interfaces_witness :
  let eth0 := mkInterface "eth0" "192.168.1.10" "192.168.1.255" "255.255.255.0" in
  let svc := {| port := 5000; running := true; thread_started := true;
                network_interfaces := [eth0] |} in
  start svc = (false, svc).
Proof.
  intros eth0 svc.
  refine (proj2 (proj2 (proj2 (broadcaster_gives_up_without_interfaces
            (mkOs (fun _ => false) (fun _ => true)) [true; true] svc _ _)))).
  - repeat constructor.
  - reflexivity.
Defined.

(** *** Interface discovery and the loop with usable interfaces *)

(** One entry of [ifaddresses(interface)[AF_INET]]: a dict in which any
    of the three keys may be absent. *)
Record inet_address : Type := mkInet {
  inet_addr : option string;
  inet_broadcast : option string;
  inet_netmask : option string
}.

(** What [netifaces] answers for one interface name: [ifaddresses]
    raises, or returns a dict without or with an [AF_INET] list. *)
Definition interface_report : Type := string * result (option (list inet_address)).

(** The addresses of one interface that carry all three keys. *)
Definition usable (interface : string) (addrs : list inet_address) : list NetworkInterface :=
  omap (fun a =>
          match inet_addr a, inet_broadcast a, inet_netmask a with
          | Some ip, Some bc, Some nm => Some (mkInterface interface ip bc nm)
          | _, _, _ => None
          end) addrs.

(** [_discover_network_interfaces]: an exception ends the enumeration and
    what was appended before it stays. *)
Fixpoint _discover_network_interfaces (reports : list interface_report)
    (found : list NetworkInterface) : list NetworkInterface :=
  match reports with
  | [] => found
  | (_, Raise _) :: _ => found
  | (_, Ok None) :: rest => _discover_network_interfaces rest found
  | (interface, Ok (Some addrs)) :: rest =>
    _discover_network_interfaces rest (found ++ usable interface addrs)
  end.

(** [DiscoveryService.__init__] on a host whose interfaces are [reports]. *)
Definition init (reports : list interface_report) : t :=
  {| port := 5000; running := false; thread_started := false;
     network_interfaces := _discover_network_interfaces reports [] |}.

Lemma discover_sound reports found i :
  i ∈ _discover_network_interfaces reports found ->
  i ∈ found \/
  exists addrs a,
    (name i, Ok (Some addrs)) ∈ reports /\ a ∈ addrs /\
    inet_addr a = Some (ip i) /\ inet_broadcast a = Some (broadcast i) /\
    inet_netmask a = Some (netmask i).
Proof.
  revert found. induction reports as [|[n [[addrs|]|e]] reports IH]; intros found Hin; simpl in Hin.
  - now left.
  - destruct (IH _ Hin) as [Hf | (addrs' & a & Hr & Ha)].
    + apply elem_of_app in Hf as [Hf | Hu]; [now left|]. right.
      unfold usable in Hu. apply list_elem_of_omap in Hu as (a & Ha & Hsome).
      destruct (inet_addr a) as [x|] eqn:E1, (inet_broadcast a) as [b|] eqn:E2,
               (inet_netmask a) as [m|] eqn:E3; try discriminate.
      injection Hsome as <-. simpl. exists addrs, a.
      split; [apply list_elem_of_here|]. auto.
    + right. exists addrs', a. split; [now apply list_elem_of_further|exact Ha].
  - destruct (IH _ Hin) as [Hf | (addrs' & a & Hr & Ha)]; [now left|].
    right. exists addrs', a. split; [now apply list_elem_of_further|exact Ha].
  - now left.
Qed.

(** X11.  Every interface the service will broadcast on comes from an
    [AF_INET] address of that interface that has an address, a broadcast
    address and a netmask; an address without one of them (a loopback
    address has no broadcast address) yields no interface. *)
Theorem discovered_interfaces_have_broadcast (reports : list interface_report)
    (i : NetworkInterface) :
  i ∈ network_interfaces (init reports) ->
  exists addrs a,
    (name i, Ok (Some addrs)) ∈ reports /\ a ∈ addrs /\
    inet_addr a = Some (ip i) /\ inet_broadcast a = Some (broadcast i) /\
    inet_netmask a = Some (netmask i).
Proof.
  intros Hin. apply discover_sound in Hin as [Hin | H]; [|exact H].
  now apply elem_of_nil in Hin.
Qed.

(** A host with a loopback interface and one Ethernet interface. *)
Definition sample_host : list interface_report :=
  [("lo", Ok (Some [mkInet (Some "127.0.0.1") None (Some "255.0.0.0")]));
   ("eth0", Ok (Some [mkInet (Some "192.168.1.10") (Some "192.168.1.255")
                             (Some "255.255.255.0")]))].

Lemma discovered_interfaces_have_broadcast_witness :
  exists addrs a,
    ("eth0", Ok (Some addrs)) ∈ sample_host /\ a ∈ addrs /\
    inet_addr a = Some "192.168.1.10" /\ inet_broadcast a = Some "192.168.1.255" /\
    inet_netmask a = Some "255.255.255.0".
Proof.
  refine (discovered_interfaces_have_broadcast sample_host
            (mkInterface "eth0" "192.168.1.10" "192.168.1.255" "255.255.255.0") _).
  apply list_elem_of_here.
Defined.

Lemma create_sockets_bound w ifaces :
  fst (create_sockets w ifaces) = filter (fun i => can_bind w i = true) ifaces.
Proof.
  induction ifaces as [|i rest IH]; [reflexivity|]. simpl.
  destruct (create_sockets w rest) as [socks evs]. simpl in IH. subst socks.
  rewrite filter_cons. unfold open_socket.
  destruct (decide (can_bind w i = true)) as [Hb|Hb].
  - now rewrite Hb.
  - destruct (can_bind w i); [contradiction|reflexivity].
Qed.

Lemma broadcast_ticks_running w socks n :
  broadcast_ticks w socks (repeat true n)
    = (StillBroadcasting, concat (repeat (broadcast_once w socks) n)).
Proof.
  induction n as [|n IH]; [reflexivity|]. simpl. now rewrite IH.
Qed.

Lemma broadcast_ticks_stopped w socks n rest :
  broadcast_ticks w socks (repeat true n ++ false :: rest)
    = (ReturnedStopped, concat (repeat (broadcast_once w socks) n)).
Proof.
  induction n as [|n IH]; [reflexivity|]. simpl. now rewrite IH.
Qed.

(** X12.  With at least one interface that can be bound, the loop works
    on exactly the bindable interfaces, the others being skipped.  While
    [running] reads true it attempts, on every tick, one datagram on each
    of them, whether or not the send on another one failed; when [running]
    reads false it returns and closes each of them once. *)
Theorem broadcast_loop_isolates_interfaces (w : os) (n : nat) (later : list bool)
    (svc : t) :
  let socks := filter (fun i => can_bind w i = true) (network_interfaces svc) in
  let created := snd (create_sockets w (network_interfaces svc)) in
  let tick := map (fun i => if can_send w i then BroadcastSent i else BroadcastFailed i)
                  socks ++ [Slept] in
  socks <> [] ->
  _broadcast_loop w (repeat true n) svc
    = (StillBroadcasting, created ++ concat (repeat tick n)) /\
  _broadcast_loop w (repeat true n ++ false :: later) svc
    = (ReturnedStopped, created ++ concat (repeat tick n) ++ map SocketClosed socks).
Proof.
  intros socks created tick Hne. unfold _broadcast_loop.
  pose proof (create_sockets_bound w (network_interfaces svc)) as Hb.
  destruct (create_sockets w (network_interfaces svc)) as [ss evs] eqn:Hc.
  simpl in Hb. subst created. simpl. fold socks in Hb. subst ss.
  destruct socks as [|s0 socks'] eqn:Hs; [contradiction|].
  rewrite broadcast_ticks_running, broadcast_ticks_stopped.
  split; [now rewrite app_nil_r|reflexivity].
Qed.

(** Two interfaces, the first unbindable and the second unable to send:
    two ticks, then stopped. *)
Lemma broadcast_loop_isolates_interfaces_witness :
  let eth0 := mkInterface "eth0" "192.168.1.10" "192.168.1.255" "255.255.255.0" in
  let wlan0 := mkInterface "wlan0" "10.0.0.5" "10.0.0.255" "255.255.255.0" in
  let eth1 := mkInterface "eth1" "172.16.0.5" "172.16.0.255" "255.255.255.0" in
  let w := mkOs (fun i => negb (String.eqb (name i) "eth0"))
                (fun i => negb (String.eqb (name i) "wlan0")) in
  let svc := {| port := 5000; running := true; thread_started := true;
                network_interfaces := [eth0; wlan0; eth1] |} in
  _broadcast_loop w (repeat true 2 ++ false :: []) svc
  = (ReturnedStopped,
     [SocketFailed eth0; SocketCreated wlan0; SocketCreated eth1;
      BroadcastFailed wlan0; BroadcastSent eth1; Slept;
      BroadcastFailed wlan0; BroadcastSent eth1; Slept;
      SocketClosed wlan0; SocketClosed eth1]).
Proof.
  intros eth0 wlan0 eth1 w svc.
  refine (proj2 (broadcast_loop_isolates_interfaces w 2 [] svc _)).
  discriminate.
Defined.

(** X13.  On a host none of whose addresses has a broadcast address, or
    whose enumeration raises at once, the service has no interface, and
    its broadcast loop returns at once without sending. *)
Theorem host_without_broadcast_address_never_broadcasts
    (reports : list interface_report) (w : os) (flags : list bool) :
  Forall (fun r : interface_report =>
            match snd r with
            | Ok (Some addrs) => Forall (fun a => inet_broadcast a = None) addrs
            | _ => True
            end) reports ->
  network_interfaces (init reports) = [] /\
  _broadcast_loop w flags (init reports) = (ReturnedNoSockets, [NoValidInterfaces]).
Proof.
  intros Hall.
  assert (Hnil : network_interfaces (init reports) = []).
  { simpl. induction Hall as [|[n [[addrs|]|e]] reports Hr _ IH]; simpl; try easy.
    simpl in Hr. assert (Hu : usable n addrs = []).
    { unfold usable. induction Hr as [|a addrs Ha _ IHa]; [reflexivity|].
      simpl. rewrite Ha. destruct (inet_addr a); exact IHa. }
    now rewrite Hu. }
  split; [exact Hnil|]. unfold _broadcast_loop. now rewrite Hnil.
Qed.

Lemma host_without_broadcast_address_never_broadcasts_witness :
  _broadcast_loop (mkOs (fun _ => true) (fun _ => true)) [true; true]
    (init [("lo", Ok (Some [mkInet (Some "127.0.0.1") None (Some "255.0.0.0")]))])
  = (ReturnedNoSockets, [NoValidInterfaces]).
Proof.
  refine (proj2 (host_without_broadcast_address_never_broadcasts
                   [("lo", Ok (Some [mkInet (Some "127.0.0.1") None (Some "255.0.0.0")]))]
                   (mkOs (fun _ => true) (fun _ => true)) [true; true] _)).
  repeat constructor.
Defined.

End DiscoveryService.

(** ** The server: storage and session handlers
       ([server/src/database/db_manager.py], [server/src/main.py]) *)

Module GamingCenterServer.
Import Py.

Definition datetime : Type := Z.

(** A row of [computers]. *)
Record ComputerRow : Type := mkComputer {
  computer_name : string;
  ip_address : string;
  computer_status : string
}.

(** A row of [sessions].  SQLite stores what is bound to a parameter, so
    the two columns written from a message hold JSON scalars. *)
Record SessionRow : Type := mkSession {
  computer_id : Z;
  tariff_id : Z;
  start_time : datetime;
  end_time : option datetime;
  duration_minutes : json;
  amount_paid : json;
  status : string
}.

(** The tables of [DatabaseManager] the modelled code reads or writes,
    keyed by row id; [payments] in insertion order. *)
Record DatabaseManager : Type := mkDb {
  computers : gmap Z ComputerRow;
  sessions : gmap Z SessionRow;
  payments : list (json * json * json)
}.

(** What the handlers of the server act on: the database, and the
    clock.  [clock n] is what the [n]-th call of [datetime.now()] returns,
    and [reads] counts the calls made so far, so that two calls need not
    read the same time. *)
Record app : Type := mkApp {
  db : DatabaseManager;
  clock : nat -> datetime;
  reads : nat
}.

(** [datetime.now()]: the reading, and the application after it. *)
Definition now (a : app) : datetime := clock a (reads a).

Definition tick (a : app) : app :=
  {| db := db a; clock := clock a; reads := S (reads a) |}.

Definition with_db (d : DatabaseManager) (a : app) : app :=
  {| db := d; clock := clock a; reads := reads a |}.

(** An [int] that fits SQLite's 64-bit INTEGER. *)
Definition in_int64 (z : Z) : bool :=
  (- 2 ^ 63 <=? z) && (z <? 2 ^ 63).

(** Binding one value to a statement parameter.  A list or a dict is
    refused with an error of [sqlite3] ([InterfaceError] up to Python 3.10,
    [ProgrammingError] from 3.11, both being [sqlite3.Error]); an [int]
    outside 64 bits raises [OverflowError].  A string is held as its
    UTF-8 bytes; a [str] with a lone surrogate, which has no such bytes and
    cannot be bound, is not represented. *)
Definition bind (v : json) : result unit :=
  match v with
  | JList _ | JDict _ => Raise Sqlite3Error
  | JInt z => if in_int64 z then Ok tt else Raise OverflowError
  | _ => Ok tt
  end.

Definition bindable (v : json) : bool := is_ok (bind v).

(** The value is a list or a dict. *)
Definition is_container (v : json) : bool :=
  match v with
  | JList _ | JDict _ => true
  | _ => false
  end.

(** The parameters of a statement are bound in order; the first one that
    cannot be bound raises, and the statement is not run. *)
Fixpoint bind_all (vs : list json) : result unit :=
  match vs with
  | [] => Ok tt
  | v :: vs' =>
    match bind v with
    | Ok _ => bind_all vs'
    | Raise e => Raise e
    end
  end.

(** The row that [WHERE id = ?] selects, [id] being the integer key of
    the table.  An integer selects the row of that id, a boolean is bound
    as 0 or 1, a float selects the row of the integer it equals, if any,
    and a text that is a decimal integer, with or without a minus sign, is
    compared as that integer.  SQLite also converts a text in another
    numeric notation (blanks, a plus sign, a fraction or an exponent);
    such a text is taken to select no row. *)
Definition row_id (v : json) : option Z :=
  match v with
  | JInt z => Some z
  | JBool b => Some (if b then 1 else 0)
  | JFloat q =>
    if Qnum q mod Z.pos (Qden q) =? 0 then Some (Qnum q / Z.pos (Qden q)) else None
  | JStr s => Z.of_int <$> NilZero.int_of_string s
  | _ => None
  end.

(** [DatabaseManager.end_session]: the [UPDATE] changes the row it
    selects, if any.  The columns are taken to keep a value as it was
    bound; [schema.sql], which declares their types, is not among the
    sources. *)
Definition db_end_session (session_id duration amount : json) (now : datetime)
    (d : DatabaseManager) : result unit * DatabaseManager :=
  match bind_all [duration; amount; session_id] with
  | Raise e => (Raise e, d)
  | Ok _ =>
    match row_id session_id with
    | Some k =>
      (Ok tt,
       {| computers := computers d;
          sessions :=
            alter (fun r => {| computer_id := computer_id r;
                               tariff_id := tariff_id r;
                               start_time := start_time r;
                               end_time := Some now;
                               duration_minutes := duration;
                               amount_paid := amount;
                               status := "completed" |})
                  k (sessions d);
          payments := payments d |})
    | None => (Ok tt, d)
    end
  end.

(** [DatabaseManager.add_payment] *)
Definition db_add_payment (session_id amount payment_method : json)
    (d : DatabaseManager) : result unit * DatabaseManager :=
  match bind_all [session_id; amount; payment_method] with
  | Raise e => (Raise e, d)
  | Ok _ =>
    (Ok tt,
     {| computers := computers d; sessions := sessions d;
        payments := payments d ++ [(session_id, amount, payment_method)] |})
  end.

(** [DatabaseManager.get_session] and [get_computer] *)
Definition db_get_session (session_id : Z) (d : DatabaseManager) : option SessionRow :=
  sessions d !! session_id.

Definition db_get_computer (id : Z) (d : DatabaseManager) : option ComputerRow :=
  computers d !! id.

(** [message[key]] on the decoded message. *)
Definition subscript (message : json) (key : string) : result json :=
  match message with
  | JDict d => dict_item key d
  | _ => Raise TypeError
  end.

(** [message.get(key, default)] on a message that is a dict. *)
Definition get_default (message : json) (key : string) (dflt : json) : json :=
  match message with
  | JDict d => default dflt (dict_get key d)
  | _ => dflt
  end.

(** [GamingCenterServer.handle_session_end].  [DatabaseManager.end_session]
    reads the clock when it builds its parameters, before anything is
    bound. *)
Definition handle_session_end (message : json) (client_ip : string) (a : app)
    : result unit * app :=
  match subscript message "session_id" with
  | Raise e => (Raise e, a)
  | Ok session_id =>
    match subscript message "duration" with
    | Raise e => (Raise e, a)
    | Ok duration =>
      let amount := get_default message "amount" (JInt 0) in
      let payment_method := get_default message "payment_method" (JStr "Unknown") in
      match db_end_session session_id duration amount (now a) (db a) with
      | (Raise e, d1) => (Raise e, with_db d1 (tick a))
      | (Ok _, d1) =>
        match db_add_payment session_id amount payment_method d1 with
        | (r, d2) => (r, with_db d2 (tick a))
        end
      end
    end
  end.

(** The server window: its storage and its network manager. *)
Record t : Type := mkServer {
  state : app;
  network : NetworkManager.t app
}.

(** What the operator is shown at the end of an action. *)
Inductive notice : Type :=
| NoNotice
| Warning (text : string)
| Information (text : string).

(** The frame of a forced end. *)
Definition end_session_message (session_id : Z) : json :=
  JDict [("type", JStr "end_session"); ("session_id", JInt session_id);
         ("force_end", JBool true)].

(** [GamingCenterServer.end_session(session_id)]; [reply] is the
    operator's answer to the confirmation box.  The clock is read after
    the send and the pause that follows it. *)
Definition end_session (session_id : Z) (reply : bool) (srv : t) : notice * t :=
  if reply then
    match db_get_session session_id (db (state srv)) with
    | None => (Warning "Session not found", srv)
    | Some session =>
      match db_get_computer (computer_id session) (db (state srv)) with
      | None => (Warning "Computer not found", srv)
      | Some computer =>
        match NetworkManager.send_message (ip_address computer)
                (end_session_message session_id) (network srv) with
        | (Raise _, nm) =>
          (Warning "Could not end session", {| state := state srv; network := nm |})
        | (Ok true, nm) =>
          match db_end_session (JInt session_id) (JInt 0) (JInt 0)
                  (now (state srv)) (db (state srv)) with
          | (Ok _, d1) =>
            (Information "Session ended successfully",
             {| state := with_db d1 (tick (state srv)); network := nm |})
          | (Raise _, d1) =>
            (Warning "Could not end session",
             {| state := with_db d1 (tick (state srv)); network := nm |})
          end
        | (Ok false, nm) =>
          (Warning "Could not notify client. The computer might be offline.",
           {| state := state srv; network := nm |})
        end
      end
    end
  else (NoNotice, srv).

(** [setup_network_handlers], for the message this development follows. *)
Definition setup_network_handlers (srv : t) : t :=
  {| state := state srv;
     network := NetworkManager.register_handler "session_end" handle_session_end
                  (network srv) |}.

Definition completed (r : SessionRow) (now : datetime) (duration amount : json)
    : SessionRow :=
  {| computer_id := computer_id r; tariff_id := tariff_id r;
     start_time := start_time r; end_time := Some now;
     duration_minutes := duration; amount_paid := amount;
     status := "completed" |}.

(** Terminal 10.0.0.7 is connected and runs session 7.  The clock reads
    5400 s first, and a minute more at each later reading. *)
Definition sample_server : t :=
  {| state :=
       {| db := {| computers := {[ 1 := mkComputer "PC-1" "10.0.0.7" "online" ]};
                   sessions := {[ 7 := mkSession 1 1 0 None JNull JNull "active" ]};
                   payments := [] |};
          clock := fun n => 5400000000 + Z.of_nat n * 60000000; reads := 0 |};
     network :=
       {| NetworkManager.clients := {[ "10.0.0.7" := NetworkManager.mkSocket 7 false ]};
          NetworkManager.client_status := {[ "10.0.0.7" := "online" ]};
          NetworkManager.message_handlers := {[ "session_end" := handle_session_end ]};
          NetworkManager.sent := [] |} |}.

(** *** Who completes a session record *)

Lemma bindable_bind v : bindable v = true -> bind v = Ok tt.
Proof. unfold bindable. now destruct (bind v) as [[]|]. Qed.

Lemma db_end_session_general sid duration amount now d :
  bindable (JInt sid) = true -> bindable duration = true -> bindable amount = true ->
  db_end_session (JInt sid) duration amount now d
  = (Ok tt, {| computers := computers d;
               sessions := alter (fun r => completed r now duration amount) sid (sessions d);
               payments := payments d |}).
Proof.
  intros Hs Hd Ha. unfold db_end_session, bind_all.
  now rewrite (bindable_bind _ Hd), (bindable_bind _ Ha), (bindable_bind _ Hs).
Qed.

Lemma db_add_payment_bound sid amount method d :
  bindable (JInt sid) = true -> bindable amount = true -> bindable method = true ->
  db_add_payment (JInt sid) amount method d
  = (Ok tt, {| computers := computers d; sessions := sessions d;
               payments := payments d ++ [(JInt sid, amount, method)] |}).
Proof.
  intros Hs Ha Hm. unfold db_add_payment, bind_all.
  now rewrite (bindable_bind _ Hs), (bindable_bind _ Ha), (bindable_bind _ Hm).
Qed.

Lemma db_end_session_row sid duration amount now d r :
  bindable (JInt sid) = true -> bindable duration = true -> bindable amount = true ->
  sessions d !! sid = Some r ->
  exists d',
    db_end_session (JInt sid) duration amount now d = (Ok tt, d') /\
    sessions d' !! sid = Some (completed r now duration amount) /\
    (forall k, k <> sid -> sessions d' !! k = sessions d !! k) /\
    payments d' = payments d /\ computers d' = computers d.
Proof.
  intros Hs Hd Ha Hr. rewrite (db_end_session_general _ _ _ _ _ Hs Hd Ha).
  eexists. split; [reflexivity|]. simpl. repeat split.
  - rewrite lookup_alter_eq, Hr. reflexivity.
  - intros k Hk. now rewrite lookup_alter_ne.
Qed.

(** C1, as stated, fails.  The operator ends session 7 and the command
    is delivered: the server marks the record completed then and there,
    with duration 0 and amount 0, before any [session_end] has come in and
    without a payment. *)
Lemma forced_end_leaves_record_open_counterexample :
  let srv' := snd (end_session 7 true sample_server) in
  status <$> sessions (db (state sample_server)) !! 7 = Some "active" /\
  sessions (db (state srv')) !! 7
    = Some (mkSession 1 1 0 (Some 5400000000) (JInt 0) (JInt 0) "completed") /\
  payments (db (state srv')) = [] /\
  NetworkManager.sent (network srv') = [("10.0.0.7", end_session_message 7)].
Proof. vm_compute. repeat split. Qed.

(** C1, amended.  When the operator confirms the end of an existing
    session of a known computer, the server sends [end_session] with
    [force_end] set; if the frame is written, the server itself marks the
    record completed at once, with duration 0 and amount 0 and without
    recording a payment; if the terminal is not connected or the send
    fails, the record and the payments are left as they were.  A
    [session_end] message that names the session, with values that SQLite
    can bind (no list or object, integers within 64 bits), marks the
    record completed, whether or not it already was, with the duration and
    amount it reports and the time of its receipt, and records a
    payment. *)
Theorem forced_end_completes_record (srv : t) (sid : Z) (row : SessionRow)
    (computer : ComputerRow) :
  sessions (db (state srv)) !! sid = Some row ->
  computers (db (state srv)) !! computer_id row = Some computer ->
  bindable (JInt sid) = true ->
  let srv' := snd (end_session sid true srv) in
  let delivered :=
    match NetworkManager.clients (network srv) !! ip_address computer with
    | Some s => negb (NetworkManager.broken s)
    | None => false
    end in
  (if delivered then
     NetworkManager.sent (network srv') =
       NetworkManager.sent (network srv) ++ [(ip_address computer, end_session_message sid)] /\
     sessions (db (state srv')) !! sid
       = Some (completed row (now (state srv)) (JInt 0) (JInt 0)) /\
     payments (db (state srv')) = payments (db (state srv))
   else
     NetworkManager.sent (network srv') = NetworkManager.sent (network srv) /\
     db (state srv') = db (state srv)) /\
  forall (a : app) (r : SessionRow) (m : dict json) (client_ip : string)
         (duration : json),
    sessions (db a) !! sid = Some r ->
    dict_get "session_id" m = Some (JInt sid) ->
    dict_get "duration" m = Some duration ->
    bindable duration = true ->
    bindable (default (JInt 0) (dict_get "amount" m)) = true ->
    bindable (default (JStr "Unknown") (dict_get "payment_method" m)) = true ->
    exists d',
      handle_session_end (JDict m) client_ip a = (Ok tt, with_db d' (tick a)) /\
      sessions d' !! sid
        = Some (completed r (now a) duration
                  (default (JInt 0) (dict_get "amount" m))) /\
      payments d' = payments (db a) ++
        [(JInt sid, default (JInt 0) (dict_get "amount" m),
          default (JStr "Unknown") (dict_get "payment_method" m))].
Proof.
  intros Hrow Hcomp Hbs srv' delivered. split.
  - subst srv' delivered. unfold end_session, db_get_session, db_get_computer.
    rewrite Hrow, Hcomp. unfold NetworkManager.send_message, NetworkManager.sendall.
    destruct (NetworkManager.clients (network srv) !! ip_address computer) as [s|] eqn:Hs;
      [|now split].
    destruct (NetworkManager.broken s) eqn:Hb; cbn -[db_end_session].
    + split; [|reflexivity].
      unfold NetworkManager._remove_client. now rewrite Hs.
    + destruct (db_end_session_row sid (JInt 0) (JInt 0) (now (state srv))
                  (db (state srv)) row Hbs eq_refl eq_refl Hrow)
        as (d' & Hd & Hget & _ & Hpay & _).
      rewrite Hd. simpl. auto.
  - intros a r m client_ip duration Hr Hsid Hdur Hbd Hba Hbm.
    unfold handle_session_end, subscript, dict_item, get_default.
    rewrite Hsid, Hdur.
    destruct (db_end_session_row sid duration _ (now a) (db a) r Hbs Hbd Hba Hr)
      as (d1 & Hd & Hget & _ & Hpay & _).
    rewrite Hd, (db_add_payment_bound _ _ _ _ Hbs Hba Hbm).
    eexists. split; [reflexivity|]. simpl. split; [exact Hget|]. now rewrite Hpay.
Qed.

(** The end-to-end example of the specification, on the server side:
    [session_end] for session 7 with 120 minutes and 4.00 in cash, received
    a minute after the operator has forced the end. *)
Lemma forced_end_completes_record_witness :
  let forced := state (snd (end_session 7 true sample_server)) in
  status <$> sessions (db forced) !! 7 = Some "completed" /\
  exists d',
    handle_session_end
      (JDict [("type", JStr "session_end"); ("session_id", JInt 7);
              ("duration", JInt 120); ("amount", JFloat 4%Q);
              ("payment_method", JStr "Cash")])
      "10.0.0.7" forced
    = (Ok tt, with_db d' (tick forced)) /\
    sessions d' !! 7
      = Some (mkSession 1 1 0 (Some 5460000000) (JInt 120) (JFloat 4%Q) "completed") /\
    payments d' = [(JInt 7, JFloat 4%Q, JStr "Cash")].
Proof.
  intros forced. split; [reflexivity|].
  refine (proj2 (forced_end_completes_record sample_server 7
                   (mkSession 1 1 0 None JNull JNull "active")
                   (mkComputer "PC-1" "10.0.0.7" "online") _ _ _)
            forced (mkSession 1 1 0 (Some 5400000000) (JInt 0) (JInt 0) "completed")
            _ _ _ _ _ _ _ _ _);
    reflexivity.
Defined.

(** *** Session messages that do not fit, and removing a computer *)

(** The count that [DatabaseManager.remove_computer] selects is
    positive: some session of the computer has status [active]. *)
Definition has_active_session (id : Z) (d : DatabaseManager) : bool :=
  existsb (fun kr : Z * SessionRow =>
             (computer_id (snd kr) =? id) && String.eqb (status (snd kr)) "active")
          (map_to_list (sessions d)).

(** [DatabaseManager.remove_computer], when SQLite reports no error. *)
Definition db_remove_computer (id : Z) (d : DatabaseManager) : bool * DatabaseManager :=
  if has_active_session id d then (false, d)
  else (true, {| computers := delete id (computers d); sessions := sessions d;
                 payments := payments d |}).

(** [GamingCenterServer.remove_computer(computer_id)]; [reply] is the
    operator's answer to the confirmation box.  The notification is sent
    first, and what it returns or raises is ignored. *)
Definition remove_computer (id : Z) (reply : bool) (srv : t) : notice * t :=
  if reply then
    match db_get_computer id (db (state srv)) with
    | None => (Warning "Computer not found", srv)
    | Some computer =>
      let nm := snd (NetworkManager.send_message (ip_address computer)
                       (JDict [("type", JStr "computer_removed")]) (network srv)) in
      match db_remove_computer id (db (state srv)) with
      | (true, d1) =>
        (Information "Computer removed successfully",
         {| state := with_db d1 (state srv); network := nm |})
      | (false, d1) =>
        (Warning "Could not remove computer. Make sure there are no active sessions.",
         {| state := with_db d1 (state srv); network := nm |})
      end
    end
  else (NoNotice, srv).

Lemma alter_absent (f : SessionRow -> SessionRow) (k : Z) (m : gmap Z SessionRow) :
  m !! k = None -> alter f k m = m.
Proof.
  intros Hnone. apply map_eq. intros j. destruct (decide (j = k)) as [->|Hne].
  - now rewrite lookup_alter_eq, Hnone.
  - now rewrite lookup_alter_ne.
Qed.

(** X14.  A [session_end] that names a session the server does not have,
    with values that can be bound, changes no session record, and a
    payment is recorded for it all the same. *)
Theorem session_end_for_unknown_session_records_payment
    (m : dict json) (client_ip : string) (a : app) (sid : Z) (duration : json) :
  dict_get "session_id" m = Some (JInt sid) ->
  dict_get "duration" m = Some duration ->
  bindable (JInt sid) = true ->
  bindable duration = true ->
  bindable (default (JInt 0) (dict_get "amount" m)) = true ->
  bindable (default (JStr "Unknown") (dict_get "payment_method" m)) = true ->
  sessions (db a) !! sid = None ->
  fst (handle_session_end (JDict m) client_ip a) = Ok tt /\
  sessions (db (snd (handle_session_end (JDict m) client_ip a))) = sessions (db a) /\
  payments (db (snd (handle_session_end (JDict m) client_ip a)))
    = payments (db a) ++ [(JInt sid, default (JInt 0) (dict_get "amount" m),
                           default (JStr "Unknown") (dict_get "payment_method" m))].
Proof.
  intros Hsid Hdur Hbs Hbd Hba Hbm Hnone.
  unfold handle_session_end, subscript, dict_item, get_default. rewrite Hsid, Hdur.
  rewrite (db_end_session_general _ _ _ _ _ Hbs Hbd Hba).
  rewrite (db_add_payment_bound _ _ _ _ Hbs Hba Hbm). simpl.
  rewrite (alter_absent _ _ _ Hnone). repeat split.
Qed.

Definition session_end_frame : dict json :=
  [("type", JStr "session_end"); ("session_id", JInt 7); ("duration", JInt 120);
   ("amount", JFloat 4%Q); ("payment_method", JStr "Cash")].

Lemma session_end_for_unknown_session_records_payment_witness :
  let a := {| db := {| computers := ∅; sessions := ∅; payments := [] |};
              clock := fun _ => 0; reads := 0 |} in
  payments (db (snd (handle_session_end (JDict session_end_frame) "10.0.0.7" a)))
    = [(JInt 7, JFloat 4%Q, JStr "Cash")].
Proof.
  intros a.
  refine (proj2 (proj2 (session_end_for_unknown_session_records_payment
            session_end_frame "10.0.0.7" a 7 (JInt 120) _ _ _ _ _ _ _)));
    reflexivity.
Defined.

(** X15.  [session_end] is not idempotent: a message with values that can
    be bound, arriving a second time, records a second payment and stamps
    the session record again, with the same duration and amount and the
    time of the second receipt; the other records are not touched. *)
Theorem repeated_session_end_records_two_payments
    (m : dict json) (client_ip : string) (a : app) (sid : Z) (duration : json) :
  dict_get "session_id" m = Some (JInt sid) ->
  dict_get "duration" m = Some duration ->
  bindable (JInt sid) = true ->
  bindable duration = true ->
  bindable (default (JInt 0) (dict_get "amount" m)) = true ->
  bindable (default (JStr "Unknown") (dict_get "payment_method" m)) = true ->
  let once := snd (handle_session_end (JDict m) client_ip a) in
  let twice := snd (handle_session_end (JDict m) client_ip once) in
  let amount := default (JInt 0) (dict_get "amount" m) in
  let payment := (JInt sid, amount,
                  default (JStr "Unknown") (dict_get "payment_method" m)) in
  payments (db once) = payments (db a) ++ [payment] /\
  payments (db twice) = payments (db a) ++ [payment; payment] /\
  sessions (db once) !! sid
    = (fun r => completed r (clock a (reads a)) duration amount) <$> sessions (db a) !! sid /\
  sessions (db twice) !! sid
    = (fun r => completed r (clock a (S (reads a))) duration amount)
        <$> sessions (db a) !! sid /\
  forall k, k <> sid -> sessions (db twice) !! k = sessions (db a) !! k.
Proof.
  intros Hsid Hdur Hbs Hbd Hba Hbm once twice amount payment.
  subst once twice amount payment.
  unfold handle_session_end, subscript, dict_item, get_default. rewrite Hsid, Hdur.
  rewrite (db_end_session_general _ _ _ _ _ Hbs Hbd Hba).
  rewrite (db_add_payment_bound _ _ _ _ Hbs Hba Hbm). cbn [snd db with_db tick].
  rewrite (db_end_session_general _ _ _ _ _ Hbs Hbd Hba).
  rewrite (db_add_payment_bound _ _ _ _ Hbs Hba Hbm). simpl.
  split; [reflexivity|]. split; [now rewrite <- app_assoc|].
  split; [now rewrite lookup_alter_eq|]. split.
  - rewrite !lookup_alter_eq. now destruct (sessions (db a) !! sid).
  - intros k Hne. now rewrite !lookup_alter_ne by congruence.
Qed.

(** The message is received at 5400 s and again a minute later. *)
Lemma repeated_session_end_records_two_payments_witness :
  let a := {| db := db (state sample_server);
              clock := fun n => 5400000000 + Z.of_nat n * 60000000; reads := 0 |} in
  let once := snd (handle_session_end (JDict session_end_frame) "10.0.0.7" a) in
  let twice := snd (handle_session_end (JDict session_end_frame) "10.0.0.7" once) in
  payments (db twice) = [(JInt 7, JFloat 4%Q, JStr "Cash"); (JInt 7, JFloat 4%Q, JStr "Cash")] /\
  sessions (db twice) !! 7
    = Some (mkSession 1 1 0 (Some 5460000000) (JInt 120) (JFloat 4%Q) "completed").
Proof.
  intros a once twice.
  destruct (repeated_session_end_records_two_payments session_end_frame "10.0.0.7" a 7
              (JInt 120) eq_refl eq_refl eq_refl eq_refl eq_refl eq_refl)
    as (_ & H2 & _ & H4 & _).
  split; [exact H2|exact H4].
Defined.

(** X16.  A [session_end] frame without a [session_id] or without a
    [duration] writes nothing: the handler raises [KeyError] before it
    reaches the database, and the dispatcher of the server, with the
    handlers of [setup_network_handlers], returns normally. *)
Theorem incomplete_session_end_is_dropped
    (m : dict json) (client_ip : string) (srv : t) :
  dict_get "type" m = Some (JStr "session_end") ->
  dict_get "session_id" m = None \/ dict_get "duration" m = None ->
  (exists key, handle_session_end (JDict m) client_ip (state srv)
               = (Raise (KeyError key), state srv)) /\
  NetworkManager._process_message (JDict m) client_ip
    (network (setup_network_handlers srv)) (state srv) = (Ok tt, state srv).
Proof.
  intros Hty Hmiss.
  assert (Hh : exists key, handle_session_end (JDict m) client_ip (state srv)
                           = (Raise (KeyError key), state srv)).
  { unfold handle_session_end, subscript, dict_item.
    destruct (dict_get "session_id" m) as [sid|] eqn:Hs; [|eauto].
    destruct Hmiss as [[=] | ->]. eauto. }
  split; [exact Hh|]. destruct Hh as [key Hh].
  unfold NetworkManager._process_message. simpl. rewrite Hty. simpl.
  rewrite lookup_insert_eq, Hh. reflexivity.
Qed.

Lemma incomplete_session_end_is_dropped_witness :
  NetworkManager._process_message
    (JDict [("type", JStr "session_end"); ("session_id", JInt 7)]) "10.0.0.7"
    (network (setup_network_handlers sample_server)) (state sample_server)
  = (Ok tt, state sample_server).
Proof.
  refine (proj2 (incomplete_session_end_is_dropped
                   [("type", JStr "session_end"); ("session_id", JInt 7)] "10.0.0.7"
                   sample_server _ _)).
  - reflexivity.
  - right. reflexivity.
Defined.

(** X17.  The two writes of [handle_session_end] are separate
    transactions: when the payment method cannot be bound (it is a list or
    an object) while the other fields can, the handler raises, the session
    record is completed with the reported duration and amount all the
    same, and no payment is recorded. *)
Theorem unbindable_payment_method_completes_without_payment
    (m : dict json) (client_ip : string) (a : app) (sid : Z) (duration method : json)
    (row : SessionRow) :
  dict_get "session_id" m = Some (JInt sid) ->
  dict_get "duration" m = Some duration ->
  dict_get "payment_method" m = Some method ->
  bindable (JInt sid) = true ->
  bindable duration = true ->
  bindable (default (JInt 0) (dict_get "amount" m)) = true ->
  is_container method = true ->
  sessions (db a) !! sid = Some row ->
  is_ok (fst (handle_session_end (JDict m) client_ip a)) = false /\
  sessions (db (snd (handle_session_end (JDict m) client_ip a))) !! sid
    = Some (completed row (now a) duration (default (JInt 0) (dict_get "amount" m))) /\
  payments (db (snd (handle_session_end (JDict m) client_ip a))) = payments (db a).
Proof.
  intros Hsid Hdur Hmeth Hbs Hbd Hba Hbm Hrow.
  unfold handle_session_end, subscript, dict_item, get_default. rewrite Hsid, Hdur, Hmeth.
  rewrite (db_end_session_general _ _ _ _ _ Hbs Hbd Hba).
  change (default (JStr "Unknown") (Some method)) with method.
  unfold db_add_payment, bind_all.
  rewrite (bindable_bind _ Hbs), (bindable_bind _ Hba).
  assert (Hm : bind method = Raise Sqlite3Error).
  { destruct method; try discriminate; reflexivity. }
  rewrite Hm. simpl. rewrite lookup_alter_eq, Hrow. auto.
Qed.

Lemma unbindable_payment_method_completes_without_payment_witness :
  let m := [("type", JStr "session_end"); ("session_id", JInt 7); ("duration", JInt 120);
            ("amount", JFloat 4%Q); ("payment_method", JList [JStr "Cash"])] in
  let a' := snd (handle_session_end (JDict m) "10.0.0.7" (state sample_server)) in
  status <$> sessions (db a') !! 7 = Some "completed" /\ payments (db a') = [].
Proof.
  intros m a'.
  destruct (unbindable_payment_method_completes_without_payment m "10.0.0.7"
              (state sample_server) 7 (JInt 120) (JList [JStr "Cash"])
              (mkSession 1 1 0 None JNull JNull "active")
              eq_refl eq_refl eq_refl eq_refl eq_refl eq_refl eq_refl eq_refl)
    as (_ & Hrow & Hpay).
  subst a'. rewrite Hrow, Hpay. split; reflexivity.
Defined.

Lemma has_active_session_spec id d :
  has_active_session id d = true <->
  exists sid row, sessions d !! sid = Some row /\ computer_id row = id /\
                  status row = "active".
Proof.
  unfold has_active_session. rewrite existsb_exists. split.
  - intros ([sid row] & Hin & Hb). apply list_elem_of_In, elem_of_map_to_list in Hin.
    apply andb_true_iff in Hb as [Hc Hs]. simpl in *.
    apply Z.eqb_eq in Hc. apply String.eqb_eq in Hs. eauto.
  - intros (sid & row & Hget & Hc & Hs). exists (sid, row). split.
    + now apply list_elem_of_In, elem_of_map_to_list.
    + simpl. rewrite Hc, Hs, Z.eqb_refl. reflexivity.
Qed.

(** X18.  [DatabaseManager.remove_computer] refuses, and changes nothing,
    exactly when some session of the computer has status [active];
    otherwise it deletes the computer's row and nothing else, so the
    finished sessions that refer to the computer stay in the table. *)
Theorem remove_computer_refused_iff_active_session (id : Z) (d : DatabaseManager) :
  (fst (db_remove_computer id d) = false <->
   exists sid row, sessions d !! sid = Some row /\ computer_id row = id /\
                   status row = "active") /\
  (if fst (db_remove_computer id d) then
     computers (snd (db_remove_computer id d)) !! id = None /\
     (forall k, k <> id ->
        computers (snd (db_remove_computer id d)) !! k = computers d !! k) /\
     sessions (snd (db_remove_computer id d)) = sessions d /\
     payments (snd (db_remove_computer id d)) = payments d
   else snd (db_remove_computer id d) = d).
Proof.
  unfold db_remove_computer. rewrite <- has_active_session_spec.
  destruct (has_active_session id d); simpl.
  - split; [easy|reflexivity].
  - split; [split; discriminate|].
    split; [apply lookup_delete_eq|]. split; [|easy].
    intros k Hne. now apply lookup_delete_ne.
Qed.

(** X19.  The server tells the terminal that it has been removed before
    it knows whether the removal goes through: for a connected computer
    with an active session the [computer_removed] frame is sent, the
    removal is then refused, and the computer is still in the table. *)
Theorem removal_is_announced_before_it_is_refused
    (id : Z) (computer : ComputerRow) (s : NetworkManager.socket)
    (sid : Z) (row : SessionRow) (srv : t) :
  computers (db (state srv)) !! id = Some computer ->
  NetworkManager.clients (network srv) !! ip_address computer = Some s ->
  NetworkManager.broken s = false ->
  sessions (db (state srv)) !! sid = Some row ->
  computer_id row = id -> status row = "active" ->
  let '(n, srv') := remove_computer id true srv in
  n = Warning "Could not remove computer. Make sure there are no active sessions." /\
  db (state srv') = db (state srv) /\
  NetworkManager.sent (network srv')
    = NetworkManager.sent (network srv)
      ++ [(ip_address computer, JDict [("type", JStr "computer_removed")])].
Proof.
  intros Hc Hs Hb Hrow Hcid Hst. unfold remove_computer, db_get_computer. rewrite Hc.
  assert (Ha : has_active_session id (db (state srv)) = true).
  { apply has_active_session_spec. eauto. }
  unfold db_remove_computer. rewrite Ha.
  unfold NetworkManager.send_message, NetworkManager.sendall. rewrite Hs, Hb. simpl.
  easy.
Qed.

Lemma removal_is_announced_before_it_is_refused_witness :
  let '(n, srv') := remove_computer 1 true sample_server in
  n = Warning "Could not remove computer. Make sure there are no active sessions." /\
  db (state srv') = db (state sample_server) /\
  NetworkManager.sent (network srv')
    = [("10.0.0.7", JDict [("type", JStr "computer_removed")])].
Proof.
  exact (removal_is_announced_before_it_is_refused 1
           (mkComputer "PC-1" "10.0.0.7" "online") (NetworkManager.mkSocket 7 false)
           7 (mkSession 1 1 0 None JNull JNull "active") sample_server
           eq_refl eq_refl eq_refl eq_refl eq_refl eq_refl).
Defined.

(** X20.  A forced end that the operator does not confirm, or that names
    a session or a computer the database does not have, sends nothing and
    leaves the server as it was. *)
Theorem end_session_without_target_does_nothing (sid : Z) (reply : bool) (srv : t) :
  reply = false \/
  sessions (db (state srv)) !! sid = None \/
  (exists row, sessions (db (state srv)) !! sid = Some row /\
               computers (db (state srv)) !! computer_id row = None) ->
  snd (end_session sid reply srv) = srv.
Proof.
  unfold end_session, db_get_session, db_get_computer.
  intros [-> | [Hs | (row & Hs & Hc)]]; [reflexivity| |];
    destruct reply; try reflexivity; rewrite Hs; [reflexivity|]. now rewrite Hc.
Qed.

Lemma end_session_without_target_does_nothing_witness :
  snd (end_session 8 true sample_server) = sample_server.
Proof.
  refine (end_session_without_target_does_nothing 8 true sample_server _).
  right. left. reflexivity.
Defined.

(** X21.  Once a [session_end] with values that can be bound has
    completed the only active session of a computer, the computer can be
    removed. *)
Theorem completed_session_unblocks_removal
    (m : dict json) (client_ip : string) (a : app) (sid : Z) (duration : json)
    (row : SessionRow) :
  dict_get "session_id" m = Some (JInt sid) ->
  dict_get "duration" m = Some duration ->
  bindable (JInt sid) = true ->
  bindable duration = true ->
  bindable (default (JInt 0) (dict_get "amount" m)) = true ->
  bindable (default (JStr "Unknown") (dict_get "payment_method" m)) = true ->
  sessions (db a) !! sid = Some row ->
  (forall k r, k <> sid -> sessions (db a) !! k = Some r ->
               computer_id r = computer_id row -> status r <> "active") ->
  fst (db_remove_computer (computer_id row)
         (db (snd (handle_session_end (JDict m) client_ip a)))) = true.
Proof.
  intros Hsid Hdur Hbs Hbd Hba Hbm Hrow Hothers.
  unfold handle_session_end, subscript, dict_item, get_default. rewrite Hsid, Hdur.
  rewrite (db_end_session_general _ _ _ _ _ Hbs Hbd Hba).
  rewrite (db_add_payment_bound _ _ _ _ Hbs Hba Hbm). cbn [snd db with_db].
  unfold db_remove_computer.
  destruct (has_active_session _ _) eqn:Ha; [|reflexivity]. exfalso.
  apply has_active_session_spec in Ha as (k & r & Hget & Hc & Hs). simpl in Hget.
  destruct (decide (k = sid)) as [->|Hne].
  - rewrite lookup_alter_eq, Hrow in Hget. injection Hget as <-. discriminate Hs.
  - rewrite lookup_alter_ne in Hget by congruence. exact (Hothers k r Hne Hget Hc Hs).
Qed.

Lemma completed_session_unblocks_removal_witness :
  fst (db_remove_computer 1
         (db (snd (handle_session_end (JDict session_end_frame) "10.0.0.7"
                     (state sample_server))))) = true.
Proof.
  refine (completed_session_unblocks_removal session_end_frame "10.0.0.7"
            (state sample_server) 7 (JInt 120)
            (mkSession 1 1 0 None JNull JNull "active") _ _ _ _ _ _ _ _);
    try reflexivity.
  intros k r Hne Hget. simpl in Hget.
  rewrite lookup_singleton_ne in Hget by congruence. discriminate.
Defined.

End GamingCenterServer.

(** ** The terminal's session manager ([client/src/main.py]) *)

Module SessionManager.
Import Py.

Definition datetime : Type := Z.

(** What the terminal passes to its network layer: a message as it is, or
    the token that [Fernet(key).encrypt] returns for a serialised message.
    The token is kept symbolic: it names the key and the plaintext it was
    made from, and is a [str] to whoever holds it. *)
Inductive outgoing : Type :=
| Plain (message : json)
| Token (key : string) (message : json).

(** The attributes of [SessionManager]; [inactivity_timer] records
    whether a timer is set.  [session_duration] holds whatever value
    [start_session] was given: nothing checks that it is a number. *)
Record t : Type := mkManager {
  session_key : option string;
  fernet : option string;
  session_id : option Z;
  session_start : option datetime;
  session_duration : option json;
  last_activity : option datetime;
  inactivity_timeout : Z;
  inactivity_timer : bool
}.

(** [SessionManager.__init__] *)
Definition init : t :=
  {| session_key := None; fernet := None; session_id := None;
     session_start := None; session_duration := None; last_activity := None;
     inactivity_timeout := 300; inactivity_timer := false |}.

(** [start_session(session_id, duration)] at clock reading [now];
    [fresh] is the key that [generate_session_key] derives from the random
    material it draws. *)
Definition start_session (id : Z) (duration : json) (now : datetime)
    (fresh : string) (sm : t) : string * t :=
  (fresh,
   {| session_key := Some fresh; fernet := Some fresh; session_id := Some id;
      session_start := Some now; session_duration := Some duration;
      last_activity := Some now; inactivity_timeout := inactivity_timeout sm;
      inactivity_timer := true |}).

(** [update_activity()], also the effect of [_handle_inactivity()] on the
    manager. *)
Definition update_activity (now : datetime) (sm : t) : t :=
  {| session_key := session_key sm; fernet := fernet sm;
     session_id := session_id sm; session_start := session_start sm;
     session_duration := session_duration sm; last_activity := Some now;
     inactivity_timeout := inactivity_timeout sm;
     inactivity_timer := inactivity_timer sm |}.

(** [_check_inactivity()]: whether the warning was raised, and the
    manager afterwards. *)
Definition _check_inactivity (now : datetime) (sm : t) : bool * t :=
  match last_activity sm with
  | None => (false, sm)
  | Some last =>
    if inactivity_timeout sm * 1000000 <=? now - last
    then (true, update_activity now sm)
    else (false, sm)
  end.

(** [encrypt_message(message)] *)
Definition encrypt_message (message : json) (sm : t) : result outgoing :=
  match fernet sm with
  | None => Raise ValueError
  | Some key => Ok (Token key message)
  end.

(** [decrypt_message(encrypted_message)]: a token opens under the key it
    was made with; a [str] that is no token is refused by [Fernet]; only a
    [str] has an [encode]. *)
Definition decrypt_message (encrypted_message : outgoing) (sm : t) : result json :=
  match fernet sm with
  | None => Raise ValueError
  | Some key =>
    match encrypted_message with
    | Token key' message =>
      if String.eqb key key' then Ok message else Raise InvalidToken
    | Plain (JStr _) => Raise InvalidToken
    | Plain _ => Raise AttributeError
    end
  end.


(** The least magnitude that does not fit a float: a number is
    converted, or a product rounded, to a finite float exactly when its
    magnitude is below [2^1024 - 2^970]. *)
Definition float_limit : Z := 2 ^ 1024 - 2 ^ 970.

Definition in_float_range (q : Q) : bool :=
  Z.abs (Qnum q) <? float_limit * Z.pos (Qden q).

(** [self.session_duration * 3600], in seconds, as far as the subtraction
    and [int(...)] that follow can use it.  An [int] too large for a float
    raises [OverflowError] when it meets the float [elapsed]; a float
    product that overflows becomes infinite, and [int(...)] of it raises
    [OverflowError]; [None], a string, a list or a dict raise [TypeError],
    in the product or in the subtraction, memory permitting.  A [bool]
    counts as 0 or 1. *)
Definition allotted (duration : json) : result Q :=
  match duration with
  | JInt d =>
    if in_float_range (inject_Z (d * 3600)) then Ok (inject_Z (d * 3600))
    else Raise OverflowError
  | JBool b => Ok (inject_Z ((if b then 1 else 0) * 3600))
  | JFloat q =>
    if in_float_range (q * inject_Z 3600)%Q then Ok (q * inject_Z 3600)%Q
    else Raise OverflowError
  | JNull | JStr _ | JList _ | JDict _ => Raise TypeError
  end.

(** [int(x)]: the integer part, toward zero. *)
Definition truncate (x : Q) : Z := Z.quot (Qnum x) (Z.pos (Qden x)).

(** [get_remaining_time()] at clock reading [now].  Times are counted in
    microseconds, so [total_seconds()] is the rational [(now - start) /
    10^6].  The arithmetic is that of the rationals; the floats of the
    source round each of these numbers to the nearest float, which is
    monotone and keeps zero, so [remaining] has the sign computed here,
    while its magnitude can differ by the rounding.  A manager with a
    start time and no duration would fail in the product. *)
Definition get_remaining_time (now : datetime) (sm : t) : result Z :=
  match session_start sm with
  | None => Ok 0
  | Some start =>
    match session_duration sm with
    | None => Raise TypeError
    | Some duration =>
      match allotted duration with
      | Raise e => Raise e
      | Ok seconds =>
        let elapsed := Qmake (now - start) 1000000 in
        let remaining := (seconds - elapsed)%Q in
        Ok (Z.max 0 (truncate remaining))
      end
    end
  end.

(** [end_session()] *)
Definition end_session (sm : t) : t :=
  {| session_key := None; fernet := None; session_id := None;
     session_start := None; session_duration := None; last_activity := None;
     inactivity_timeout := inactivity_timeout sm; inactivity_timer := false |}.

(** The managers that the methods can produce from a new one. *)
Inductive reachable : t -> Prop :=
| reach_init : reachable init
| reach_start id duration now fresh sm :
    reachable sm -> reachable (snd (start_session id duration now fresh sm))
| reach_activity now sm :
    reachable sm -> reachable (update_activity now sm)
| reach_check now sm :
    reachable sm -> reachable (snd (_check_inactivity now sm))
| reach_end sm :
    reachable sm -> reachable (end_session sm).

(** *** Remaining time *)

Lemma started_has_duration sm :
  reachable sm -> is_Some (session_start sm) -> is_Some (session_duration sm).
Proof.
  induction 1 as [| id duration now fresh sm _ _ | now sm _ IH | now sm _ IH | sm _ _];
    simpl; intros Hs.
  - destruct Hs as [? [=]].
  - eauto.
  - exact (IH Hs).
  - unfold _check_inactivity in *. destruct (last_activity sm); [|exact (IH Hs)].
    destruct (_ <=? _); exact (IH Hs).
  - destruct Hs as [? [=]].
Qed.

Lemma truncate_nonpos (x : Q) : (x <= 0)%Q -> truncate x <= 0.
Proof.
  unfold Qle, truncate. simpl. rewrite Z.mul_1_r. intros Hx.
  pose proof (Z.quot_le_mono (Qnum x) 0 (Z.pos (Qden x)) ltac:(lia) Hx) as Hm.
  now rewrite Z.quot_0_l in Hm by lia.
Qed.

(** C10, as stated, fails.  [start_session] stores the duration it is
    given, and [get_remaining_time] raises for a duration that is not a
    number or whose seconds do not fit a float: here the integer [10^400],
    and [None]. *)
Lemma get_remaining_time_returns_counterexample :
  let huge := snd (start_session 7 (JInt (10 ^ 400)) 0 "k" init) in
  let null := snd (start_session 7 JNull 0 "k" init) in
  get_remaining_time 1000000 huge = Raise OverflowError /\
  get_remaining_time 1000000 null = Raise TypeError.
Proof. split; reflexivity. Qed.

(** C10, amended.  In every state the session manager can be in,
    [get_remaining_time()] returns 0 when no session has been started.
    When one has, and the duration it was started with is a number whose
    seconds fit a float, it returns an integer that is not negative, and 0
    once the time elapsed since the start is at least [duration * 3600]
    seconds.  With any other duration it raises [TypeError] or
    [OverflowError]. *)
Theorem get_remaining_time_nonneg (sm : t) (now : datetime) :
  reachable sm ->
  match session_start sm with
  | None => get_remaining_time now sm = Ok 0
  | Some start =>
    exists duration, session_duration sm = Some duration /\
    match allotted duration with
    | Ok seconds =>
      exists n : Z,
        get_remaining_time now sm = Ok n /\ 0 <= n /\
        ((seconds <= Qmake (now - start) 1000000)%Q -> n = 0)
    | Raise e =>
      get_remaining_time now sm = Raise e /\ (e = TypeError \/ e = OverflowError)
    end
  end.
Proof.
  intros Hr. unfold get_remaining_time.
  destruct (session_start sm) as [start|] eqn:Hs; [|reflexivity].
  destruct (started_has_duration sm Hr) as [duration Hd]; [rewrite Hs; eauto|].
  exists duration. split; [exact Hd|]. rewrite Hd.
  destruct (allotted duration) as [seconds|e] eqn:Ha.
  - eexists. split; [reflexivity|]. split; [lia|].
    intros Hle. apply Z.max_l, truncate_nonpos.
    apply (Qplus_le_l _ _ (Qmake (now - start) 1000000)). ring_simplify. exact Hle.
  - split; [reflexivity|]. unfold allotted in Ha.
    destruct duration as [| b | d | q | s | l | d]; try (injection Ha as <-; auto);
      try discriminate.
    + destruct (in_float_range _); [discriminate|]. injection Ha as <-. auto.
    + destruct (in_float_range _); [discriminate|]. injection Ha as <-. auto.
Qed.

(** A two-hour session read one hour in, and three hours in. *)
Lemma get_remaining_time_nonneg_witness :
  let sm := snd (start_session 7 (JInt 2) 0 "k" init) in
  get_remaining_time 3600000000 sm = Ok 3600 /\
  get_remaining_time 10800000000 sm = Ok 0.
Proof.
  intros sm.
  assert (Hr : reachable sm) by (apply reach_start, reach_init).
  split.
  - destruct (get_remaining_time_nonneg sm 3600000000 Hr) as (d & [= <-] & n & Hn & _).
    rewrite Hn. injection Hn as <-. reflexivity.
  - destruct (get_remaining_time_nonneg sm 10800000000 Hr)
      as (d & [= <-] & n & Hn & _ & Hz).
    rewrite Hn. f_equal. apply Hz. unfold Qle. simpl. lia.
Defined.

(** *** Inactivity and session keys *)

(** X22.  The inactivity check warns exactly when an activity time is
    recorded and at least [inactivity_timeout] seconds have passed since.
    It never ends the session: the key and the remaining time are what
    they were.  A warning restarts the inactivity clock, so a check made
    less than the timeout after a warning does not warn again. *)
Theorem inactivity_warns_once_and_keeps_session (now : datetime) (sm : t) :
  (fst (_check_inactivity now sm) = true <->
   exists last, last_activity sm = Some last /\
                inactivity_timeout sm * 1000000 <= now - last) /\
  session_key (snd (_check_inactivity now sm)) = session_key sm /\
  (forall at_time, get_remaining_time at_time (snd (_check_inactivity now sm))
                   = get_remaining_time at_time sm) /\
  (forall later,
     fst (_check_inactivity now sm) = true ->
     later - now < inactivity_timeout sm * 1000000 ->
     fst (_check_inactivity later (snd (_check_inactivity now sm))) = false).
Proof.
  unfold _check_inactivity.
  destruct (last_activity sm) as [last|] eqn:Hl.
  - destruct (inactivity_timeout sm * 1000000 <=? now - last) eqn:Hle; simpl.
    + apply Z.leb_le in Hle. split; [split; eauto|]. split; [reflexivity|].
      split; [reflexivity|]. intros later _ Hlt.
      destruct (_ <=? later - now) eqn:Hle'; [|reflexivity].
      apply Z.leb_le in Hle'. lia.
    + apply Z.leb_gt in Hle. split.
      * split; [discriminate|]. intros (last' & [= <-] & Hge). lia.
      * split; [reflexivity|]. split; [reflexivity|]. discriminate.
  - simpl. split.
    + split; [discriminate|]. intros (last' & [=] & _).
    + split; [reflexivity|]. split; [reflexivity|]. discriminate.
Qed.

(** X23.  A token made by [encrypt_message] opens, under the session it
    was made in, to the message it was made from.  It does not open once
    the session has ended ([ValueError]: no key), nor in a later session,
    which has a key of its own ([InvalidToken]). *)
Theorem token_opens_only_in_its_session (message : json) (token : outgoing) (sm : t) :
  encrypt_message message sm = Ok token ->
  decrypt_message token sm = Ok message /\
  decrypt_message token (end_session sm) = Raise ValueError /\
  forall id duration now fresh,
    fernet sm <> Some fresh ->
    decrypt_message token (snd (start_session id duration now fresh sm))
      = Raise InvalidToken.
Proof.
  unfold encrypt_message, decrypt_message.
  destruct (fernet sm) as [key|] eqn:Hk; [|discriminate].
  intros [= <-]. rewrite String.eqb_refl. split; [reflexivity|]. split; [reflexivity|].
  intros id duration now fresh Hne. simpl.
  destruct (String.eqb fresh key) eqn:E; [|reflexivity].
  apply String.eqb_eq in E. congruence.
Qed.

Lemma token_opens_only_in_its_session_witness :
  let sm := snd (start_session 7 (JInt 2) 0 "k1" init) in
  decrypt_message (Token "k1" (JStr "hello")) sm = Ok (JStr "hello") /\
  decrypt_message (Token "k1" (JStr "hello")) (snd (start_session 8 (JInt 1) 9 "k2" sm))
    = Raise InvalidToken.
Proof.
  intros sm.
  destruct (token_opens_only_in_its_session (JStr "hello") (Token "k1" (JStr "hello"))
              sm eq_refl) as (H1 & _ & H3).
  split; [exact H1|]. apply H3. discriminate.
Defined.

End SessionManager.

(** ** The kiosk window's clock ([client/src/shell_manager.py]) *)

Module KioskWindow.

(** The colour of the time display. *)
Inductive color : Type :=
| Red
| Orange
| Green.

(** [KioskWindow.update_time(remaining_seconds)]: the colour, and the
    hours, minutes and seconds put in the label.  [//] and [%] round
    toward minus infinity, as [Z.div] and [Z.modulo] do. *)
Definition update_time (remaining_seconds : Z) : color * (Z * Z * Z) :=
  let hours := remaining_seconds / 3600 in
  let minutes := (remaining_seconds mod 3600) / 60 in
  let seconds := remaining_seconds mod 60 in
  let color :=
    if remaining_seconds <? 300 then Red
    else if remaining_seconds <? 900 then Orange
    else Green in
  (color, (hours, minutes, seconds)).

(** X24.  The three numbers shown add up to the remaining time, minutes
    and seconds each staying below sixty, for every integer passed in; the
    display is red below five minutes, orange below fifteen and green from
    there on. *)
Theorem update_time_splits_the_remaining_time (remaining_seconds : Z) :
  let '(color, (hours, minutes, seconds)) := update_time remaining_seconds in
  hours * 3600 + minutes * 60 + seconds = remaining_seconds /\
  0 <= minutes < 60 /\ 0 <= seconds < 60 /\
  (color = Red <-> remaining_seconds < 300) /\
  (color = Orange <-> 300 <= remaining_seconds < 900) /\
  (color = Green <-> 900 <= remaining_seconds).
Proof.
  unfold update_time. set (r := remaining_seconds).
  pose proof (Z.div_mod r 3600 ltac:(lia)) as H1.
  pose proof (Z.mod_pos_bound r 3600 ltac:(lia)) as B1.
  pose proof (Z.div_mod (r mod 3600) 60 ltac:(lia)) as H2.
  pose proof (Z.mod_pos_bound (r mod 3600) 60 ltac:(lia)) as B2.
  assert (Hs : r mod 60 = (r mod 3600) mod 60).
  { symmetry. apply (Z.mod_unique_pos r 60 (60 * (r / 3600) + (r mod 3600) / 60)); lia. }
  rewrite Hs. split; [lia|]. split.
  - split; [apply Z.div_pos; lia|apply Z.div_lt_upper_bound; lia].
  - split; [lia|].
    destruct (r <? 300) eqn:E1; [apply Z.ltb_lt in E1|apply Z.ltb_ge in E1].
    + repeat split; try discriminate; try lia; intros; lia.
    + destruct (r <? 900) eqn:E2; [apply Z.ltb_lt in E2|apply Z.ltb_ge in E2];
        repeat split; try discriminate; try lia; intros; lia.
Qed.

End KioskWindow.

(** ** The terminal window and its session handlers
       ([client/src/main.py]) *)

Module GamingCenterClient.
Import Py.

(** A reading of [datetime.now()], in microseconds from 1970-01-01
    00:00:00.  The readings taken while one handler runs are taken as one
    instant. *)
Definition datetime : Type := Z.

(** [datetime.min] and [datetime.max]: the first instant of year 1 and the
    last of year 9999. *)
Definition datetime_min : Z := -62135596800000000.
Definition datetime_max : Z := 253402300799999999.

Definition in_datetime (t : Z) : bool :=
  (datetime_min <=? t) && (t <=? datetime_max).

(** The microseconds in [n] hours. *)
Definition hours (n : Z) : Z := n * 3600 * 1000000.

(** [timedelta(hours=n)] for an [int]: a span of more than 999999999 days
    either way is refused. *)
Definition timedelta_hours (n : Z) : result Z :=
  if (-999999999 <=? n / 24) && (n / 24 <=? 999999999) then Ok (hours n)
  else Raise OverflowError.

(** [t + delta] for a datetime and a timedelta: a date out of range is
    refused. *)
Definition datetime_add (t : datetime) (delta : Z) : result datetime :=
  if in_datetime (t + delta) then Ok (t + delta) else Raise OverflowError.

(** The values a C [int] holds: the arguments of a signal declared
    [Signal(int, int)]. *)
Definition in_int32 (z : Z) : bool := (- 2 ^ 31 <=? z) && (z <? 2 ^ 31).

(** The dict held in [current_session]. *)
Record current : Type := mkCurrent {
  id : Z;
  start_time : datetime;
  end_time : datetime
}.

(** The decoded [start_session] message: a dict in which either key may
    be absent.  The values carry the type the server gives them. *)
Record start_message : Type := mkStart {
  msg_session_id : option Z;
  msg_duration : option Z
}.

(** The attributes of [GamingCenterClient] that the session handlers
    touch.  [sent] lists the arguments of the calls of
    [network.send_message] that returned (oldest first); [monitoring] and
    [kiosk] are the lockdown of [SystemLocker] and the kiosk shell of
    [ShellManager]; [dialogs] are the message boxes shown. *)
Record t : Type := mkClient {
  session_manager : SessionManager.t;
  current_session : option current;
  sent : list SessionManager.outgoing;
  monitoring : bool;
  kiosk : bool;
  visible : bool;
  session_label : string;
  end_session_btn : bool;
  dialogs : list string
}.

(** The window after [__init__], connected and idle. *)
Definition init : t :=
  {| session_manager := SessionManager.init; current_session := None;
     sent := []; monitoring := false; kiosk := false; visible := true;
     session_label := "No active session"; end_session_btn := false;
     dialogs := [] |}.

(** How the lockdown and the kiosk shell answer when a session starts:
    [start_monitoring] raises; a later step raises; [start_kiosk_mode]
    returns false; or it returns true. *)
Inductive shell_outcome : Type :=
| LockRaises
| ShellRaises
| KioskFailed
| KioskStarted.

(** The slot [start_session(session_id, duration)].  The dict assigned to
    [current_session] is built first: when its end time cannot be
    computed, nothing is assigned, and the [except] clause shows the
    window and an error box.  Once the assignment is made, a later failure
    leaves it in place. *)
Definition start_session (session_id duration : Z) (now : datetime)
    (shell : shell_outcome) (c : t) : t :=
  let end_time_of :=
    match timedelta_hours duration with
    | Ok delta => datetime_add now delta
    | Raise e => Raise e
    end in
  match end_time_of with
  | Raise _ =>
    {| session_manager := session_manager c; current_session := current_session c;
       sent := sent c; monitoring := monitoring c; kiosk := kiosk c;
       visible := true; session_label := session_label c;
       end_session_btn := end_session_btn c;
       dialogs := dialogs c ++ ["Failed to start session"] |}
  | Ok end_time_value =>
    let cs := {| id := session_id; start_time := now;
                 end_time := end_time_value |} in
    let label := "Session " +:+ str_of_int session_id +:+ " active" in
    match shell with
    | LockRaises =>
      {| session_manager := session_manager c; current_session := Some cs;
         sent := sent c; monitoring := monitoring c; kiosk := kiosk c;
         visible := true; session_label := label; end_session_btn := true;
         dialogs := dialogs c ++ ["Failed to start session"] |}
    | ShellRaises =>
      {| session_manager := session_manager c; current_session := Some cs;
         sent := sent c; monitoring := true; kiosk := kiosk c;
         visible := true; session_label := label; end_session_btn := true;
         dialogs := dialogs c ++ ["Failed to start session"] |}
    | KioskFailed =>
      {| session_manager := session_manager c; current_session := Some cs;
         sent := sent c; monitoring := true; kiosk := kiosk c;
         visible := true; session_label := label; end_session_btn := true;
         dialogs := dialogs c ++ ["Kiosk Mode Error"] |}
    | KioskStarted =>
      {| session_manager := session_manager c; current_session := Some cs;
         sent := sent c; monitoring := true; kiosk := true;
         visible := false; session_label := label; end_session_btn := true;
         dialogs := dialogs c |}
    end
  end.

Definition with_session_manager (sm : SessionManager.t) (c : t) : t :=
  {| session_manager := sm; current_session := current_session c;
     sent := sent c; monitoring := monitoring c; kiosk := kiosk c;
     visible := visible c; session_label := session_label c;
     end_session_btn := end_session_btn c; dialogs := dialogs c |}.

Definition with_sent (o : SessionManager.outgoing) (c : t) : t :=
  {| session_manager := session_manager c; current_session := current_session c;
     sent := sent c ++ [o]; monitoring := monitoring c; kiosk := kiosk c;
     visible := visible c; session_label := session_label c;
     end_session_btn := end_session_btn c; dialogs := dialogs c |}.

Definition with_dialog (text : string) (c : t) : t :=
  {| session_manager := session_manager c; current_session := current_session c;
     sent := sent c; monitoring := monitoring c; kiosk := kiosk c;
     visible := visible c; session_label := session_label c;
     end_session_btn := end_session_btn c; dialogs := dialogs c ++ [text] |}.

(** The acknowledgment built by [handle_start_session]. *)
Definition ack_message (session_id : Z) (session_key : string) : json :=
  JDict [("type", JStr "session_started"); ("session_id", JInt session_id);
         ("session_key", JStr session_key)].

(** [network.send_message(o)] of the terminal's network manager, which is
    not among the sources: [send_ok] tells whether the call returns or
    raises. *)
Definition network_send (o : SessionManager.outgoing) (send_ok : bool) (c : t)
    : result unit * t :=
  if send_ok then (Ok tt, with_sent o c) else (Raise OSError, c).

(** [handle_start_session(message)].  The session manager is given the
    duration as it came.  The signal [session_started] carries two C
    [int]s: emitting it with a larger integer raises [OverflowError], which
    the handler reports like any other failure; otherwise it runs the slot
    [start_session]. *)
Definition handle_start_session (message : start_message) (now : datetime)
    (fresh : string) (send_ok : bool) (shell : shell_outcome) (c : t) : t :=
  match msg_session_id message, msg_duration message with
  | Some session_id, Some duration =>
    let '(session_key, sm) :=
      SessionManager.start_session session_id (JInt duration) now fresh
        (session_manager c) in
    let c1 := with_session_manager sm c in
    match SessionManager.encrypt_message (ack_message session_id session_key) sm with
    | Raise _ => with_dialog "Failed to start session" c1
    | Ok token =>
      match network_send token send_ok c1 with
      | (Raise _, c2) => with_dialog "Failed to start session" c2
      | (Ok _, c2) =>
        if in_int32 session_id && in_int32 duration
        then start_session session_id duration now shell c2
        else with_dialog "Failed to start session" c2
      end
    end
  | _, _ => with_dialog "Failed to start session" c
  end.

(** How the payment dialog is closed. *)
Inductive payment : Type :=
| Accepted (amount : Q) (method : string)
| Rejected.

(** The message sent when the payment is confirmed. *)
Definition session_end_message (session_id duration : Z) (amount : Q)
    (method : string) : json :=
  JDict [("type", JStr "session_end"); ("session_id", JInt session_id);
         ("duration", JInt duration); ("amount", JFloat amount);
         ("payment_method", JStr method)].

(** The [finally] clause of [end_session]. *)
Definition cleanup (force_end : bool) (c : t) : t :=
  {| session_manager := SessionManager.end_session (session_manager c);
     current_session := None; sent := sent c; monitoring := false;
     kiosk := false; visible := visible c;
     session_label := "No active session"; end_session_btn := false;
     dialogs := if force_end then dialogs c ++ ["Session Ended"] else dialogs c |}.

(** [end_session(force_end)].  The [return] of the cancelled dialog sits
    inside the [try], so the [finally] clause runs on that path as on the
    others. *)
Definition end_session (force_end : bool) (now : datetime) (dialog : payment)
    (send_ok : bool) (c : t) : t :=
  match current_session c with
  | None => c
  | Some cs =>
    let c1 :=
      {| session_manager := session_manager c; current_session := current_session c;
         sent := sent c; monitoring := monitoring c; kiosk := kiosk c;
         visible := true; session_label := session_label c;
         end_session_btn := end_session_btn c; dialogs := dialogs c |} in
    let duration := Z.quot (now - start_time cs) 60000000 in
    match dialog with
    | Accepted amount method =>
      let '(_, c2) :=
        network_send (SessionManager.Plain
                        (session_end_message (id cs) duration amount method))
                     send_ok c1 in
      cleanup force_end c2
    | Rejected => cleanup force_end c1
    end
  end.

(** A terminal that has just started session 7 for two hours. *)
Definition active_client : t :=
  handle_start_session (mkStart (Some 7) (Some 2)) 0 "c2Vzc2lvbi1rZXk=" true
    KioskStarted init.

(** *** Starting a session *)





(** A duration of [10^9] hours fits a C [int] but ends after year 9999:
    the acknowledgment has been sent and the session manager runs the
    session, while the window shows an error box and holds no current
    session. *)
Lemma end_time_out_of_range_leaves_terminal_idle :
  let c' := handle_start_session (mkStart (Some 7) (Some 1000000000)) 0 "k" true
              KioskStarted init in
  in_int32 1000000000 = true /\
  sent c' = [SessionManager.Token "k" (ack_message 7 "k")] /\
  SessionManager.session_key (session_manager c') = Some "k" /\
  current_session c' = None /\
  dialogs c' = ["Failed to start session"].
Proof. repeat split. Qed.

(** *** Ending a session *)

(** Whatever the dialog answers, [end_session] on a terminal with a
    session runs the cleanup. *)
Lemma end_session_cleans_up force_end now dialog send_ok c cs :
  current_session c = Some cs ->
  let c' := end_session force_end now dialog send_ok c in
  current_session c' = None /\
  session_manager c' = SessionManager.end_session (session_manager c) /\
  monitoring c' = false /\ kiosk c' = false.
Proof.
  intros Hcs. unfold end_session. rewrite Hcs.
  destruct dialog as [amount method|]; [destruct send_ok|]; repeat split.
Qed.

(** C2 on the code.  The user of the active terminal asks to end the
    session half an hour in and cancels the payment dialog, with no force
    from the server.  Nothing is sent, but the session is gone: the
    current session and the session key are cleared and the lockdown and
    the kiosk shell are stopped. *)
Theorem cancelled_payment_ends_session :
  let after := end_session false 1800000000 Rejected true active_client in
  current_session active_client = Some (mkCurrent 7 0 7200000000) /\
  sent after = sent active_client /\
  current_session after = None /\
  SessionManager.session_key (session_manager active_client) = Some "c2Vzc2lvbi1rZXk=" /\
  SessionManager.session_key (session_manager after) = None /\
  SessionManager.inactivity_timer (session_manager after) = false /\
  monitoring active_client = true /\ monitoring after = false /\
  kiosk active_client = true /\ kiosk after = false.
Proof. repeat split. Qed.

(** *** The countdown, and the ways a session starts and ends *)

(** [update_status()], the timer slot, at clock reading [now]: the hours,
    minutes and seconds written to the time label when time remains, and
    the window afterwards.  When no time remains it calls
    [end_session()], whose dialog and send are answered by [dialog] and
    [send_ok].  Times are counted in microseconds. *)
Definition update_status (now : datetime) (dialog : payment) (send_ok : bool) (c : t)
    : option (Z * Z * Z) * t :=
  match current_session c with
  | None => (None, c)
  | Some cs =>
    let remaining := end_time cs - now in
    if 0 <? remaining then
      (Some (remaining / 3600000000,
             (remaining mod 3600000000) / 60000000,
             (remaining mod 60000000) / 1000000), c)
    else (None, end_session false now dialog send_ok c)
  end.

(** X25.  When the acknowledgment cannot be handed to the network layer,
    the session manager has already started the session (key set, start
    time and duration recorded, and for a duration whose seconds are
    within [2^53] the whole of it remaining) but the window has no current
    session: an error box is shown, nothing is sent, and a later
    [end_session] finds nothing to end. *)
Theorem failed_acknowledgment_leaves_session_half_started
    (c : t) (message : start_message) (session_id duration : Z) (now : datetime)
    (fresh : string) (shell : shell_outcome) :
  msg_session_id message = Some session_id ->
  msg_duration message = Some duration ->
  current_session c = None ->
  let c' := handle_start_session message now fresh false shell c in
  SessionManager.session_key (session_manager c') = Some fresh /\
  SessionManager.session_start (session_manager c') = Some now /\
  SessionManager.session_duration (session_manager c') = Some (JInt duration) /\
  (Z.abs (duration * 3600) <= 2 ^ 53 ->
   SessionManager.get_remaining_time now (session_manager c')
     = Ok (Z.max 0 (duration * 3600))) /\
  current_session c' = None /\
  sent c' = sent c /\
  dialogs c' = dialogs c ++ ["Failed to start session"] /\
  forall force_end at_time dialog send_ok,
    end_session force_end at_time dialog send_ok c' = c'.
Proof.
  intros Hid Hdur Hnone c'. subst c'. unfold handle_start_session.
  rewrite Hid, Hdur. simpl. rewrite Hnone.
  split; [reflexivity|]. split; [reflexivity|]. split; [reflexivity|]. split.
  - intros Hsmall. unfold SessionManager.get_remaining_time. cbn [SessionManager.session_start
      SessionManager.session_duration SessionManager.allotted].
    assert (Hr : SessionManager.in_float_range (inject_Z (duration * 3600)) = true).
    { unfold SessionManager.in_float_range. cbn [inject_Z Qnum Qden].
      apply Z.ltb_lt.
      assert (2 ^ 53 < SessionManager.float_limit) by reflexivity. lia. }
    rewrite Hr. do 2 f_equal. unfold SessionManager.truncate.
    rewrite Z.sub_diag. cbn [Qminus Qplus Qopp inject_Z Qnum Qden Z.opp Pos.mul].
    rewrite Z.mul_0_l, Z.add_0_r. apply Z.quot_mul. lia.
  - split; [reflexivity|]. split; [reflexivity|]. split; [reflexivity|].
    intros force_end at_time dialog send_ok. unfold end_session. simpl. now rewrite Hnone.
Qed.

Lemma failed_acknowledgment_leaves_session_half_started_witness :
  let c' := handle_start_session (mkStart (Some 7) (Some 2)) 0 "k" false KioskStarted init in
  SessionManager.session_key (session_manager c') = Some "k" /\ current_session c' = None /\
  SessionManager.get_remaining_time 0 (session_manager c') = Ok 7200.
Proof.
  intros c'.
  destruct (failed_acknowledgment_leaves_session_half_started init
              (mkStart (Some 7) (Some 2)) 7 2 0 "k" KioskStarted eq_refl eq_refl eq_refl)
    as (H1 & _ & _ & H4 & H5 & _).
  split; [exact H1|]. split; [exact H5|]. apply H4. discriminate.
Defined.

(** X26.  When the payment is confirmed and the send returns, exactly one
    [session_end] is sent: it names the current session and reports the
    whole minutes elapsed since its start and the amount and method of the
    dialog.  The terminal is idle afterwards, and calling [end_session]
    again sends nothing more. *)
Theorem confirmed_end_sends_one_session_end
    (c : t) (cs : current) (force_end : bool) (now : datetime) (amount : Q)
    (method : string) :
  current_session c = Some cs ->
  start_time cs <= now ->
  let c' := end_session force_end now (Accepted amount method) true c in
  let minutes := Z.quot (now - start_time cs) 60000000 in
  sent c' = sent c ++ [SessionManager.Plain
                         (session_end_message (id cs) minutes amount method)] /\
  minutes * 60000000 <= now - start_time cs < (minutes + 1) * 60000000 /\
  current_session c' = None /\
  forall force_end' at_time dialog send_ok,
    end_session force_end' at_time dialog send_ok c' = c'.
Proof.
  intros Hcs Hle c' minutes. subst c' minutes. unfold end_session. rewrite Hcs. simpl.
  split; [reflexivity|]. split.
  - rewrite Z.quot_div_nonneg by lia.
    pose proof (Z.div_mod (now - start_time cs) 60000000 ltac:(lia)).
    pose proof (Z.mod_pos_bound (now - start_time cs) 60000000 ltac:(lia)). lia.
  - split; reflexivity.
Qed.

Lemma confirmed_end_sends_one_session_end_witness :
  sent (end_session false 7200000000 (Accepted 4%Q "Cash") true active_client)
  = sent active_client
    ++ [SessionManager.Plain (session_end_message 7 120 4%Q "Cash")].
Proof.
  exact (proj1 (confirmed_end_sends_one_session_end active_client
                  (mkCurrent 7 0 7200000000) false 7200000000 4%Q "Cash"
                  eq_refl ltac:(discriminate))).
Defined.

(** X27.  An end forced by the server is unconditional: whatever the
    payment dialog answers and whether or not the send works, the session
    is cleared, the lockdown and the kiosk shell are stopped and the user
    is told; with the dialog cancelled no [session_end] is sent. *)
Theorem forced_end_is_unconditional
    (c : t) (cs : current) (now : datetime) (dialog : payment) (send_ok : bool) :
  current_session c = Some cs ->
  let c' := end_session true now dialog send_ok c in
  current_session c' = None /\
  session_manager c' = SessionManager.end_session (session_manager c) /\
  monitoring c' = false /\ kiosk c' = false /\
  dialogs c' = dialogs c ++ ["Session Ended"] /\
  (dialog = Rejected \/ send_ok = false -> sent c' = sent c).
Proof.
  intros Hcs c'. subst c'. unfold end_session. rewrite Hcs.
  destruct dialog as [amount method|]; [destruct send_ok|]; simpl; repeat split;
    intros [H | H]; discriminate.
Qed.

Lemma forced_end_is_unconditional_witness :
  let c' := end_session true 1800000000 Rejected true active_client in
  current_session c' = None /\ sent c' = sent active_client.
Proof.
  intros c'.
  destruct (forced_end_is_unconditional active_client (mkCurrent 7 0 7200000000)
              1800000000 Rejected true eq_refl) as (H1 & _ & _ & _ & _ & H6).
  split; [exact H1|]. apply H6. now left.
Defined.

Lemma micro_mod (r k : Z) :
  0 < k ->
  r mod (k * 1000000) = r mod 1000000 + 1000000 * ((r / 1000000) mod k).
Proof. intros Hk. rewrite (Z.mul_comm k). apply Z.rem_mul_r; lia. Qed.

Lemma micro_div_small (r q : Z) :
  (r mod 1000000 + 1000000 * q) / 1000000 = q.
Proof.
  rewrite (Z.mul_comm 1000000 q), Z.div_add by lia.
  rewrite Z.div_small; [lia|]. apply Z.mod_pos_bound. lia.
Qed.

Lemma micro_div (r k : Z) : 0 < k -> r / (k * 1000000) = (r / 1000000) / k.
Proof. intros Hk. rewrite Z.div_div by lia. now rewrite Z.mul_comm. Qed.

Lemma micro_mod_div (r k : Z) :
  0 < k -> (r mod (k * 1000000)) / 1000000 = (r / 1000000) mod k.
Proof. intros Hk. rewrite micro_mod by lia. apply micro_div_small. Qed.

(** X28.  While time remains, the timer slot changes nothing but the
    display, and shows the hours, minutes and seconds that the kiosk
    window shows for the same whole number of seconds.  At the first tick
    at or after the end time it ends the session as a local,
    unforced end. *)
Theorem countdown_ends_session_at_zero
    (c : t) (cs : current) (now : datetime) (dialog : payment) (send_ok : bool) :
  current_session c = Some cs ->
  (now < end_time cs ->
   update_status now dialog send_ok c
     = (Some (snd (KioskWindow.update_time ((end_time cs - now) / 1000000))), c)) /\
  (end_time cs <= now ->
   update_status now dialog send_ok c
     = (None, end_session false now dialog send_ok c) /\
   current_session (snd (update_status now dialog send_ok c)) = None).
Proof.
  intros Hcs. unfold update_status. rewrite Hcs. split.
  - intros Hlt. destruct (0 <? end_time cs - now) eqn:E; [|apply Z.ltb_ge in E; lia].
    unfold KioskWindow.update_time. simpl. set (r := end_time cs - now).
    change 3600000000 with (3600 * 1000000). change 60000000 with (60 * 1000000).
    rewrite (micro_div r 3600), (micro_mod_div r 60), (micro_mod r 3600) by lia.
    rewrite (micro_div _ 60) by lia. rewrite micro_div_small. reflexivity.
  - intros Hle. destruct (0 <? end_time cs - now) eqn:E; [apply Z.ltb_lt in E; lia|].
    split; [reflexivity|]. simpl. unfold end_session. rewrite Hcs.
    destruct dialog as [amount method|]; [destruct send_ok|]; reflexivity.
Qed.

Lemma countdown_ends_session_at_zero_witness :
  update_status 3723000000 Rejected true active_client = (Some (0, 57, 57), active_client) /\
  current_session (snd (update_status 7200000000 Rejected true active_client)) = None.
Proof.
  destruct (countdown_ends_session_at_zero active_client (mkCurrent 7 0 7200000000)
              7200000000 Rejected true eq_refl) as [_ H2].
  destruct (countdown_ends_session_at_zero active_client (mkCurrent 7 0 7200000000)
              3723000000 Rejected true eq_refl) as [H1 _].
  split; [exact (H1 ltac:(reflexivity))|exact (proj2 (H2 ltac:(discriminate)))].
Defined.

End GamingCenterClient.
